(** * GlobalBan: the ban reconciliation of [globalban/core.py]

    A shallow embedding of the three reconciliation routines of the
    GlobalBan cog ([update_gbs], [remove_gbs_guild], [remove_gbs_user]) and of
    the commands that call them, over an explicit store made of the persisted
    configuration and the state of the membership provider.  Every call to the
    provider, to the moderation log and to the logger is recorded in a trace. *)

From Stdlib Require Import ZArith DecimalString DecimalZ.
From stdpp Require Import gmap strings list fin_maps.

Local Open Scope Z_scope.

(** ** Python values stored in the configuration *)

(** A guild's [banlist] is a JSON list.  [optin] stores integers in it
    ([be.user.id]); [update_gbs] appends the roster key [uid], which is a
    string.  Python's [==] never identifies an integer with a string, so
    structural equality on [pyval] is Python's equality on these values. *)
Inductive pyval :=
| PInt (z : Z)
| PStr (s : string).

#[global] Instance pyval_eq_dec : EqDecision pyval.
Proof. solve_decision. Defined.

(** [str(n)] for an integer [n]. *)
Definition py_str (z : Z) : string := NilZero.string_of_int (Z.to_int z).

(** [int(s)] for a string [s]: [None] stands for [ValueError]. *)
Definition py_int (s : string) : option Z :=
  option_map Z.of_int (NilZero.int_of_string s).

(** ** Exceptions and provider replies *)

Inductive exn := AttributeError | Forbidden | NotFound | ValueError.

#[global] Instance exn_eq_dec : EqDecision exn.
Proof. solve_decision. Defined.

(** [guild.bans()]: the entries, or the [AttributeError] or
    [discord.Forbidden] that [update_gbs] and [remove_gbs_user] expect. *)
Inductive bans_reply := BansOk | BansAttributeError | BansForbidden.

(** [guild.ban]: success, [discord.NotFound] or [discord.Forbidden]. *)
Inductive ban_reply := BanOk | BanNotFound | BanForbidden.

(** [guild.unban]: success or [discord.Forbidden]. *)
Inductive unban_reply := UnbanOk | UnbanForbidden.

(** ** The membership provider *)

(** One guild known to the bot.  [g_bans] are the identifiers of the banned
    users in the order [guild.bans()] yields them, [g_members] the members
    that [guild.get_member] finds.  [bans_reply_of] is the provider's answer
    to enumerating the bans; [ban_reply_of] and [unban_reply_of] give its
    answer per user. *)
Record Guild := mkGuild {
  g_name : string;
  g_bans : list Z;
  g_members : list Z;
  bans_reply_of : bans_reply;
  ban_reply_of : Z -> ban_reply;
  unban_reply_of : Z -> unban_reply
}.

(** ** The persisted configuration
    [register_global(banned={}, opted=[])], [register_guild(banlist=[])].
    [banned] is a dict with string keys, kept in insertion order. *)
Record Config := mkConfig {
  banned : list (string * string);
  opted : list Z;
  banlists : gmap Z (list pyval)
}.

Record Store := mkStore {
  config : Config;
  guilds : gmap Z Guild;
  now : Z
}.

(** [await self.config.guild(guild).banlist()], default [[]]. *)
Definition banlist_of (c : Config) (gid : Z) : list pyval :=
  default [] (banlists c !! gid).

(** ** Observable calls *)

(** [guild.ban] is given either [discord.Object(id=uid)] or a member. *)
Inductive target := ById (uid : Z) | ByMember (uid : Z).

Definition target_id (t : target) : Z :=
  match t with ById u => u | ByMember u => u end.

Inductive event :=
| ListBans (gid : Z)
| Ban (gid : Z) (t : target) (reason : string)
| Unban (gid uid : Z)
| CreateCase (gid created_at : Z) (action_type : string)
             (user : option Z) (reason : string)
| LogException (msg : string) (e : exn)
| LogWarning (msg : string)
| Send (msg : string)
| Tick.

#[global] Instance target_eq_dec : EqDecision target.
Proof. solve_decision. Defined.

#[global] Instance event_eq_dec : EqDecision event.
Proof. solve_decision. Defined.

(** ** The monad: store, exceptions and a trace *)

Inductive outcome (A : Type) :=
| Return (a : A)
| Raise (e : exn).
Arguments Return {A} a.
Arguments Raise {A} e.

Definition M (A : Type) : Type := Store -> outcome A * Store * list event.

Definition ret {A} (a : A) : M A := fun s => (Return a, s, []).

Definition raise {A} (e : exn) : M A := fun s => (Raise e, s, []).

Definition bind {A B} (m : M A) (k : A -> M B) : M B := fun s =>
  match m s with
  | (Return a, s1, t1) =>
      match k a s1 with (r, s2, t2) => (r, s2, t1 ++ t2) end
  | (Raise e, s1, t1) => (Raise e, s1, t1)
  end.

#[global] Instance M_ret : MRet M := @ret.
#[global] Instance M_bind : MBind M := fun A B k m => bind m k.

(** [try: m except E: h] where [handler e = Some h] when [E] matches [e]. *)
Definition try_except {A} (m : M A) (handler : exn -> option (M A)) : M A :=
  fun s =>
  match m s with
  | (Return a, s1, t1) => (Return a, s1, t1)
  | (Raise e, s1, t1) =>
      match handler e with
      | Some h => match h s1 with (r, s2, t2) => (r, s2, t1 ++ t2) end
      | None => (Raise e, s1, t1)
      end
  end.

(** [for x in l: body x]; an exception leaves the loop. *)
Fixpoint for_each {A} (body : A -> M unit) (l : list A) : M unit :=
  match l with
  | [] => ret tt
  | x :: l' => body x;; for_each body l'
  end.

Definition result_of {A} (r : outcome A * Store * list event) : outcome A :=
  r.1.1.
Definition store_of {A} (r : outcome A * Store * list event) : Store :=
  r.1.2.
Definition events_of {A} (r : outcome A * Store * list event) : list event :=
  r.2.

Definition emit (e : event) : M unit := fun s => (Return tt, s, [e]).

Definition get_store : M Store := fun s => (Return s, s, []).

Definition put_config (c : Config) : M unit := fun s =>
  (Return tt, mkStore c (guilds s) (now s), []).

Definition put_guild (gid : Z) (g : Guild) : M unit := fun s =>
  (Return tt, mkStore (config s) (<[gid := g]> (guilds s)) (now s), []).

(** ** Configuration access *)

Definition get_banned : M (list (string * string)) :=
  s ← get_store; ret (banned (config s)).

Definition get_opted : M (list Z) :=
  s ← get_store; ret (opted (config s)).

Definition get_banlist (gid : Z) : M (list pyval) :=
  s ← get_store; ret (banlist_of (config s) gid).

Definition set_banlist (gid : Z) (l : list pyval) : M unit :=
  s ← get_store;
  put_config (mkConfig (banned (config s)) (opted (config s))
                       (<[gid := l]> (banlists (config s)))).

Definition set_opted (l : list Z) : M unit :=
  s ← get_store;
  put_config (mkConfig (banned (config s)) l (banlists (config s))).

Definition set_banned (d : list (string * string)) : M unit :=
  s ← get_store;
  put_config (mkConfig d (opted (config s)) (banlists (config s))).

(** Python dicts as association lists with unique keys. *)
Definition dict_keys (d : list (string * string)) : list string := d.*1.

Fixpoint dict_set (k v : string) (d : list (string * string)) :
  list (string * string) :=
  match d with
  | [] => [(k, v)]
  | (k', v') :: d' =>
      if decide (k' = k) then (k, v) :: d' else (k', v') :: dict_set k v d'
  end.

Definition dict_del (k : string) (d : list (string * string)) :
  list (string * string) :=
  filter (fun kv => kv.1 <> k) d.

(** ** Provider access
    A guild object is a live handle: every query is answered from the current
    state of the provider.  [self.bot.get_guild] yields [None] for an unknown
    identifier, and calling a method on [None] raises [AttributeError]. *)

Definition get_guild (gid : Z) : M (option Z) :=
  s ← get_store;
  ret (match guilds s !! gid with Some _ => Some gid | None => None end).

Definition with_guild {A} (guild : option Z) (k : Z -> Guild -> M A) : M A :=
  match guild with
  | None => raise AttributeError
  | Some h =>
      s ← get_store;
      match guilds s !! h with
      | Some g => k h g
      | None => raise AttributeError
      end
  end.

(** [guild.bans()]: the enumeration of the bans.  The source reaches it as
    [async for entry in guild.bans()] and, in [remove_gbs_guild], as
    [await guild.bans()]; both are read as this one query of the provider. *)
Definition guild_bans (guild : option Z) : M (list Z) :=
  with_guild guild (fun h g =>
    emit (ListBans h);;
    match bans_reply_of g with
    | BansOk => ret (g_bans g)
    | BansAttributeError => raise AttributeError
    | BansForbidden => raise Forbidden
    end).

Definition guild_name (guild : option Z) : M string :=
  with_guild guild (fun _ g => ret (g_name g)).

Definition get_member (guild : option Z) (uid : Z) : M (option Z) :=
  with_guild guild (fun _ g =>
    ret (if decide (uid ∈ g_members g) then Some uid else None)).

Definition add_ban (u : Z) (g : Guild) : Guild :=
  mkGuild (g_name g)
          (if decide (u ∈ g_bans g) then g_bans g else g_bans g ++ [u])
          (filter (fun m => m <> u) (g_members g))
          (bans_reply_of g) (ban_reply_of g) (unban_reply_of g).

Definition del_ban (u : Z) (g : Guild) : Guild :=
  mkGuild (g_name g)
          (filter (fun b => b <> u) (g_bans g))
          (g_members g)
          (bans_reply_of g) (ban_reply_of g) (unban_reply_of g).

Definition guild_ban (guild : option Z) (t : target) (reason : string) :
  M unit :=
  with_guild guild (fun h g =>
    emit (Ban h t reason);;
    match ban_reply_of g (target_id t) with
    | BanOk => put_guild h (add_ban (target_id t) g)
    | BanNotFound => raise NotFound
    | BanForbidden => raise Forbidden
    end).

Definition guild_unban (guild : option Z) (u : Z) : M unit :=
  with_guild guild (fun h g =>
    emit (Unban h u);;
    match unban_reply_of g u with
    | UnbanOk => put_guild h (del_ban u g)
    | UnbanForbidden => raise Forbidden
    end).

(** [modlog.create_case(bot, guild, created_at=now, action_type, user,
    reason)]. *)
Definition create_case (guild : option Z) (action_type : string)
  (user : option Z) (reason : string) : M unit :=
  match guild with
  | None => raise AttributeError
  | Some h =>
      s ← get_store;
      emit (CreateCase h (now s) action_type user reason)
  end.

(** [int(uid)] as a computation. *)
Definition int_of (s : string) : M Z :=
  match py_int s with
  | Some z => ret z
  | None => raise ValueError
  end.

(** ** The reconciliation routines *)

(** The f-strings of [update_gbs] and [remove_gbs_user]. *)
Definition ban_reason (author reason : string) : string :=
  "Global ban initiated by " +:+ author +:+ " with the reason: " +:+ reason.

Definition guild_error_msg (gid : Z) : string :=
  "Error with guild with id '" +:+ py_str gid +:+ "'".

Definition ban_failed_msg (uid gname : string) : string :=
  "Failed to ban user with ID " +:+ uid +:+ " in guild " +:+ gname.

(** [except (AttributeError, discord.Forbidden): h]. *)
Definition on_unavailable {A} (h : exn -> M A) (e : exn) : option (M A) :=
  match e with
  | AttributeError | Forbidden => Some (h e)
  | _ => None
  end.

(** [except discord.Forbidden: h]. *)
Definition on_forbidden {A} (h : M A) (e : exn) : option (M A) :=
  match e with
  | Forbidden => Some h
  | _ => None
  end.

(** [except discord.errors.NotFound: h]. *)
Definition on_not_found {A} (h : M A) (e : exn) : option (M A) :=
  match e with
  | NotFound => Some h
  | _ => None
  end.

(** Lines 208-217 of [update_gbs]: the first [try] of the loop over the
    roster.  The result is [true] when the iteration ends with [continue]. *)
Definition already_banned (gid : Z) (guild : option Z) (uid : string) :
  M bool :=
  try_except
    (ban_entries ← guild_bans guild;
     u ← int_of uid;
     if decide (u ∈ ban_entries) then
       h ← with_guild guild (fun h _ => ret h);
       banlist ← get_banlist h;
       u' ← int_of uid;
       (if decide (PInt u' ∈ banlist) then ret tt
        else set_banlist h (banlist ++ [PStr uid]));;
       ret true
     else ret false)
    (on_unavailable (fun e =>
       emit (LogException (guild_error_msg gid) e);; ret true)).

(** Lines 218-247 of [update_gbs]: the ban and its audit record. *)
Definition enforce_ban (author : string) (guild : option Z)
  (uid reason : string) : M unit :=
  u ← int_of uid;
  m ← get_member guild u;
  try_except
    (match m with
     | None =>
         o ← int_of uid;
         try_except (guild_ban guild (ById o) (ban_reason author reason))
                    (on_not_found (ret tt))
     | Some mem => guild_ban guild (ByMember mem) (ban_reason author reason)
     end;;
     create_case guild "globalban" m (ban_reason author reason))
    (on_forbidden
       (gname ← guild_name guild;
        emit (LogWarning (ban_failed_msg uid gname)))).

(** The body of the loop over [banned.items()]. *)
Definition update_entry (author : string) (gid : Z) (guild : option Z)
  (entry : string * string) : M unit :=
  skip ← already_banned gid guild entry.1;
  if skip : bool then ret tt
  else enforce_ban author guild entry.1 entry.2.

(** The body of the loop over [opted]. *)
Definition update_guild (author : string) (gid : Z) : M unit :=
  guild ← get_guild gid;
  match guild with
  | None => ret tt
  | Some _ =>
      roster ← get_banned;
      for_each (update_entry author gid guild) roster
  end.

Definition update_gbs (author : string) : M unit :=
  gids ← get_opted;
  for_each (update_guild author) gids.

(** The body of the loop of [remove_gbs_guild] over the ban entries. *)
Definition lift_ban (guild : option Z) (u : Z) : M unit :=
  roster ← get_banned;
  if decide (py_str u ∉ dict_keys roster) then ret tt
  else
    h ← with_guild guild (fun h _ => ret h);
    banlist ← get_banlist h;
    if decide (PInt u ∈ banlist) then ret tt
    else try_except (guild_unban guild u) (on_forbidden (ret tt)).

Definition remove_gbs_guild (gid : Z) : M unit :=
  guild ← get_guild gid;
  ban_entries ← guild_bans guild;
  for_each (lift_ban guild) ban_entries.

(** The lookup of [remove_gbs_user] inside its [try]: [None] when the
    iteration ends with [continue]. *)
Definition find_banned (gid : Z) (guild : option Z) (uid : Z) :
  M (option (list Z)) :=
  try_except
    (ban_entries ← guild_bans guild;
     ret (Some (filter (fun b => b = uid) ban_entries)))
    (on_unavailable (fun e =>
       emit (LogException (guild_error_msg gid) e);; ret None)).

(** The body of the loop of [remove_gbs_user] over [opted]. *)
Definition remove_user_in (uid gid : Z) : M unit :=
  guild ← get_guild gid;
  match guild with
  | None => ret tt
  | Some h =>
      banlist ← get_banlist h;
      if decide (PInt uid ∈ banlist) then ret tt
      else
        found ← find_banned gid guild uid;
        match found with
        | None => ret tt
        | Some [] => ret tt
        | Some (user :: _) =>
            try_except (guild_unban guild user) (on_forbidden (ret tt))
        end
  end.

Definition remove_gbs_user (uid : Z) : M unit :=
  gids ← get_opted;
  for_each (remove_user_in uid) gids.

(** ** The commands that drive the reconciliation *)

(** [optin]: [confirmed] is the answer to the confirmation prompt. *)
Definition optin (author : string) (gid : Z) (confirmed : bool) : M unit :=
  opted ← get_opted;
  if decide (gid ∈ opted) then
    emit (Send "This guild is already opted in.")
  else if negb confirmed then ret tt
  else
    set_opted (opted ++ [gid]);;
    ban_entries ← guild_bans (Some gid);
    set_banlist gid (PInt <$> ban_entries);;
    update_gbs author;;
    emit Tick.

(** [optout]; [opted.remove] drops the first occurrence. *)
Fixpoint list_remove_first (x : Z) (l : list Z) : list Z :=
  match l with
  | [] => []
  | y :: l' => if decide (y = x) then l' else y :: list_remove_first x l'
  end.

Definition optout (gid : Z) (confirmed : bool) : M unit :=
  opted ← get_opted;
  if decide (gid ∉ opted) then
    emit (Send "This guild is already opted out.")
  else if negb confirmed then ret tt
  else
    set_opted (list_remove_first gid opted);;
    remove_gbs_guild gid;;
    emit Tick.

(** [ban user_id reason]. *)
Definition ban_cmd (author : string) (user_id : Z) (reason : string) :
  M unit :=
  roster ← get_banned;
  set_banned (dict_set (py_str user_id) reason roster);;
  update_gbs author;;
  emit Tick.

(** [unban user_id]. *)
Definition unban_cmd (user_id : Z) : M unit :=
  roster ← get_banned;
  set_banned (dict_del (py_str user_id) roster);;
  remove_gbs_user user_id;;
  emit Tick.

(** [editreason user_id reason]: the confirmation is asked for only when the
    new reason is empty; [confirmed] is its answer. *)
Definition editreason (user_id : Z) (reason : string) (confirmed : bool) :
  M unit :=
  roster ← get_banned;
  if decide (py_str user_id ∉ dict_keys roster) then
    emit (Send "This user is not banned.")
  else if bool_decide (reason = "") && negb confirmed then ret tt
  else
    set_banned (dict_set (py_str user_id) reason roster);;
    emit Tick.

(** ["\t"], ["\n"] and [sep.join(l)]. *)
Definition tab : string := String (Ascii.ascii_of_nat 9) "".

Definition newline : string := String (Ascii.ascii_of_nat 10) "".

Fixpoint str_join (sep : string) (l : list string) : string :=
  match l with
  | [] => ""
  | [x] => x
  | x :: l' => x +:+ sep +:+ str_join sep l'
  end.

(** The text that [list] pages: one line [key TAB reason] per roster entry. *)
Definition roster_text (roster : list (string * string)) : string :=
  str_join newline ((fun kv => kv.1 +:+ tab +:+ kv.2) <$> roster).

(** [list].  [inline], [box] and [pagify] are the helpers of
    [redbot.core.utils.chat_formatting], taken as parameters. *)
Definition list_cmd (inline box : string -> string)
  (pagify : string -> list string) : M unit :=
  roster ← get_banned;
  if decide (roster_text roster = "") then
    emit (Send (inline "There are no banned users."))
  else for_each (fun page => emit (Send (box page))) (pagify (roster_text roster)).

(** ** A small world to run the routines on *)

Definition G1 : Z := 1001.

Definition plain_guild (bans members : list Z) : Guild :=
  mkGuild "G1" bans members BansOk (fun _ => BanOk) (fun _ => UnbanOk).

Definition store0 (roster : list (string * string)) (opt : list Z)
  (bl : gmap Z (list pyval)) (gs : gmap Z Guild) : Store :=
  mkStore (mkConfig roster opt bl) gs 1700000000.

(** * Vocabulary of the properties *)

(** ** Removal: what the store keeps
    [keeps K s s']: the configuration is the same, the same guilds are known,
    and every ban [(h, u)] with [K h u] is still in place. *)
Record keeps (K : Z -> Z -> Prop) (s s' : Store) : Prop := mkKeeps {
  keeps_config : config s' = config s;
  keeps_unknown : forall h, guilds s !! h = None -> guilds s' !! h = None;
  keeps_known : forall h g, guilds s !! h = Some g ->
    exists g', guilds s' !! h = Some g' /\
               forall u, u ∈ g_bans g -> K h u -> u ∈ g_bans g'
}.

Ltac unfold_run :=
  unfold get_guild, get_banlist, get_banned, get_opted, guild_bans,
    guild_unban, guild_ban, guild_name, get_member, create_case, int_of,
    with_guild, try_except, emit, get_store, put_guild, put_config,
    set_banlist, on_forbidden, on_unavailable, on_not_found,
    ret, raise, mbind, M_bind, bind.

(** Name the three components of a run and compute the run in [E]. *)
Ltac run_eqn E :=
  match goal with
  | |- context [result_of ?x] =>
      let r := fresh "r" in let s' := fresh "s'" in let t := fresh "t" in
      destruct x as [[r s'] t] eqn:E;
      unfold result_of, store_of, events_of; simpl; revert E
  end.

Ltac finish_run := intros [= <- <- <-].

(** Split a property of all events of an explicit trace, and drop the events
    whose constructor the property does not mention. *)
Ltac each_event :=
  repeat first [apply Forall_nil_2 | apply Forall_cons_2];
  try (intros; discriminate).

(** What an unban issued by [remove_gbs_guild gid] in store [s] satisfies. *)
Definition lifted_by_guild (gid : Z) (s : Store) (e : event) : Prop :=
  forall h v, e = Unban h v ->
    h = gid /\
    (exists g, guilds s !! gid = Some g /\ v ∈ g_bans g) /\
    py_str v ∈ dict_keys (banned (config s)) /\
    PInt v ∉ banlist_of (config s) gid.

(** What an unban issued by [remove_gbs_user uid] in store [s] satisfies. *)
Definition lifted_by_user (uid : Z) (s : Store) (e : event) : Prop :=
  forall h u, e = Unban h u ->
    u = uid /\ h ∈ opted (config s) /\ PInt uid ∉ banlist_of (config s) h.

(** Decide a closed proposition by evaluation. *)
Ltac by_compute := apply (bool_decide_unpack _); vm_compute; exact I.

Definition no_kept : Z -> Z -> Prop := fun _ _ => False.

(** A store in which user 42 is banned in G1, is on the roster, and is held
    by G1's banlist as the integer that [optin] stores. *)
Definition store_protected : Store :=
  store0 [("42", "spam")] [G1] {[G1 := [PInt 42]]}
         {[G1 := plain_guild [42; 43] []]}.


(** ** Enforcement: what the store keeps
    [grows s s']: the roster, the opted list and the clock are the same, the
    same guilds are known and answer the same way, and no ban was lifted. *)
Record grows (s s' : Store) : Prop := mkGrows {
  grows_banned : banned (config s') = banned (config s);
  grows_opted : opted (config s') = opted (config s);
  grows_now : now s' = now s;
  grows_unknown : forall h, guilds s !! h = None -> guilds s' !! h = None;
  grows_known : forall h g, guilds s !! h = Some g ->
    exists g', guilds s' !! h = Some g' /\
      g_name g' = g_name g /\
      bans_reply_of g' = bans_reply_of g /\
      ban_reply_of g' = ban_reply_of g /\
      (forall u, u ∈ g_bans g -> u ∈ g_bans g') /\
      (forall u, u ∈ g_members g' -> u ∈ g_members g)
}.

(** The one way an iteration of [update_gbs] raises on a parsable key: the
    ban of a current member answered by [NotFound], which only the
    by-identifier path catches. *)
Definition member_not_found (g : Guild) (u : Z) : Prop :=
  bans_reply_of g = BansOk /\ (u ∉ g_bans g) /\ (u ∈ g_members g) /\
  ban_reply_of g u = BanNotFound.

(** The identifiers of the guilds whose bans a trace enumerates. *)
Definition queries (t : list event) : list Z :=
  omap (fun e => match e with ListBans h => Some h | _ => None end) t.

(** The [guild.ban] calls of a trace. *)
Definition is_ban (e : event) : bool :=
  match e with Ban _ _ _ => true | _ => false end.

Definition ban_calls (t : list event) : list event :=
  filter (fun e => is_ban e = true) t.

(** Every key of the roster is the decimal form of an integer, as
    [banned[str(user_id)] = reason] writes them. *)
Definition parsable (d : list (string * string)) : Prop :=
  Forall (fun kv => is_Some (py_int kv.1)) d.

(** The provider does not answer [NotFound] to the ban of a roster user who
    is a current member of [h] and not banned there. *)
Definition members_found (s : Store) (h : Z) : Prop :=
  forall g kv u, guilds s !! h = Some g -> kv ∈ banned (config s) ->
    py_int kv.1 = Some u -> u ∈ g_members g -> u ∉ g_bans g ->
    ban_reply_of g u <> BanNotFound.

(** Every roster user is banned in [h] already or can be banned there. *)
Definition bannable (s : Store) (h : Z) : Prop :=
  forall g kv u, guilds s !! h = Some g -> kv ∈ banned (config s) ->
    py_int kv.1 = Some u ->
    u ∈ g_bans g \/ ban_reply_of g u = BanOk.

(** Every roster user is banned in [h], if [h] is known and lists its bans. *)
Definition enforced (s : Store) (h : Z) : Prop :=
  forall g kv u, guilds s !! h = Some g -> bans_reply_of g = BansOk ->
    kv ∈ banned (config s) -> py_int kv.1 = Some u -> u ∈ g_bans g.

(** The enumerations that one pass over the roster makes in guild [h]. *)
Definition guild_queries (s : Store) (h : Z) : list Z :=
  match guilds s !! h with
  | Some _ => (fun _ => h) <$> banned (config s)
  | None => []
  end.

(** G1 with a provider that refuses to ban user 42 and bans anyone else. *)
Definition strict_guild (bans members : list Z) : Guild :=
  mkGuild "G1" bans members BansOk
          (fun u => if decide (u = 42) then BanForbidden else BanOk)
          (fun _ => UnbanOk).

(** G1 with a provider that refuses to enumerate the bans. *)
Definition closed_guild : Guild :=
  mkGuild "G1" [] [] BansForbidden (fun _ => BanOk) (fun _ => UnbanOk).

Definition store_fresh : Store :=
  store0 [("42", "spam")] [G1] ∅ {[G1 := plain_guild [] []]}.

Definition store_banned : Store :=
  store0 [("42", "spam")] [G1] ∅ {[G1 := plain_guild [42] []]}.

Definition store_strict : Store :=
  store0 [("42", "spam"); ("43", "raid")] [G1] ∅ {[G1 := strict_guild [] [42]]}.

Definition store_closed : Store :=
  store0 [("42", "spam"); ("43", "raid")] [G1] ∅ {[G1 := closed_guild]}.

Definition store_two : Store :=
  store0 [("42", "spam"); ("43", "raid")] [G1] ∅
         {[G1 := plain_guild [43] [42]]}.

(** ** Enforcement: what a pass never undoes
    [extends s s']: the roster, the opted list and the clock are the same, no
    entry left a banlist, the same guilds are known and no ban was lifted. *)
Record extends (s s' : Store) : Prop := mkExtends {
  extends_banned : banned (config s') = banned (config s);
  extends_opted : opted (config s') = opted (config s);
  extends_now : now s' = now s;
  extends_banlist : forall h v,
    v ∈ banlist_of (config s) h -> v ∈ banlist_of (config s') h;
  extends_unknown : forall h, guilds s !! h = None -> guilds s' !! h = None;
  extends_known : forall h g, guilds s !! h = Some g ->
    exists g', guilds s' !! h = Some g' /\
               forall u, u ∈ g_bans g -> u ∈ g_bans g'
}.

(** What every call that [update_gbs author] makes from store [s] is: an
    enumeration in a known opted guild, the ban of a roster user who was not
    banned there, with the reason built from the roster, a case of type
    "globalban" at the current time, or a log line. *)
Definition enforcement_event (author : string) (s : Store) (e : event) :
  Prop :=
  match e with
  | ListBans h => h ∈ opted (config s) /\ is_Some (guilds s !! h)
  | Ban h t reason =>
      h ∈ opted (config s) /\
      exists g kv, guilds s !! h = Some g /\ kv ∈ banned (config s) /\
        py_int kv.1 = Some (target_id t) /\
        reason = ban_reason author kv.2 /\
        target_id t ∉ g_bans g
  | CreateCase h created_at action_type user reason =>
      h ∈ opted (config s) /\ created_at = now s /\
      action_type = "globalban" /\
      exists kv, kv ∈ banned (config s) /\ reason = ban_reason author kv.2
  | LogException _ _ | LogWarning _ => True
  | Unban _ _ | Send _ | Tick => False
  end.

(** Evaluate a run by cases on everything it inspects. *)
Ltac run_cases :=
  repeat (simpl;
    match goal with
    | H : guilds ?s !! ?h = _ |- context [guilds ?s !! ?h] => rewrite H
    | H : py_int ?k = _ |- context [py_int ?k] => rewrite H
    | |- context [match py_int ?k with _ => _ end] =>
        destruct (py_int k) eqn:?
    | |- context [match guilds ?s !! ?h with _ => _ end] =>
        destruct (guilds s !! h) eqn:?
    | |- context [decide ?P] => destruct (decide P)
    | |- context [match bans_reply_of ?g with _ => _ end] =>
        destruct (bans_reply_of g) eqn:?
    | |- context [match ban_reply_of ?g ?u with _ => _ end] =>
        destruct (ban_reply_of g u) eqn:?
    | |- context [match unban_reply_of ?g ?u with _ => _ end] =>
        destruct (unban_reply_of g u) eqn:?
    end); simpl.

(** ** Removal: what a pass never adds
    [shrinks s s']: the configuration and the clock are the same, the same
    guilds are known with the same members and the same answers, and no ban
    was added. *)
Record shrinks (s s' : Store) : Prop := mkShrinks {
  shrinks_config : config s' = config s;
  shrinks_now : now s' = now s;
  shrinks_unknown : forall h, guilds s !! h = None -> guilds s' !! h = None;
  shrinks_known : forall h g, guilds s !! h = Some g ->
    exists g', guilds s' !! h = Some g' /\
      g_name g' = g_name g /\
      g_members g' = g_members g /\
      bans_reply_of g' = bans_reply_of g /\
      ban_reply_of g' = ban_reply_of g /\
      unban_reply_of g' = unban_reply_of g /\
      (forall u, u ∈ g_bans g' -> u ∈ g_bans g)
}.

(** The calls that the removal routines make: enumerations, unbans and the
    log of a failed enumeration. *)
Definition removal_event (e : event) : Prop :=
  match e with
  | ListBans _ | Unban _ _ | LogException _ _ => True
  | _ => False
  end.

(** ** The configuration the commands maintain
    The roster is a dict (no key twice) whose keys are decimal integers, and
    no guild is opted in twice. *)
Definition config_ok (c : Config) : Prop :=
  NoDup (dict_keys (banned c)) /\ parsable (banned c) /\ NoDup (opted c).

(** Messages to the invoking user, as opposed to calls to the provider. *)
Definition reply_event (e : event) : Prop :=
  match e with
  | Send _ | Tick => True
  | _ => False
  end.

(** The store with one section of the configuration replaced. *)
Definition with_banned (d : list (string * string)) (s : Store) : Store :=
  mkStore (mkConfig d (opted (config s)) (banlists (config s)))
          (guilds s) (now s).

Definition with_opted (l : list Z) (s : Store) : Store :=
  mkStore (mkConfig (banned (config s)) l (banlists (config s)))
          (guilds s) (now s).

Definition with_banlist (h : Z) (l : list pyval) (s : Store) : Store :=
  mkStore (mkConfig (banned (config s)) (opted (config s))
                    (<[h := l]> (banlists (config s))))
          (guilds s) (now s).

(** A command that ends with [ctx.tick()] after a routine. *)
Definition then_tick (r : outcome unit * Store * list event) :
  outcome unit * Store * list event :=
  match r with
  | (Return _, s, t) => (Return tt, s, t ++ [Tick])
  | (Raise e, s, t) => (Raise e, s, t)
  end.

(** [appends s s']: the roster is the same and every banlist entry of [s']
    is an entry of [s] or a roster key, stored as the string it is. *)
Record appends (s s' : Store) : Prop := mkAppends {
  appends_banned : banned (config s') = banned (config s);
  appends_banlist : forall h v, v ∈ banlist_of (config s') h ->
    v ∈ banlist_of (config s) h \/
    exists kv, kv ∈ banned (config s) /\ v = PStr kv.1
}.

(** What an unban issued by [remove_gbs_user uid] from store [s] lifts: a
    ban of [uid] that is in place in a known opted guild that lists its
    bans and whose banlist does not hold [uid]. *)
Definition lifts_ban_of (uid : Z) (s : Store) (e : event) : Prop :=
  forall h u, e = Unban h u ->
    u = uid /\ h ∈ opted (config s) /\
    exists g, guilds s !! h = Some g /\ bans_reply_of g = BansOk /\
              uid ∈ g_bans g /\ PInt uid ∉ banlist_of (config s) h.

(** More stores to run the routines on. *)
Definition store_global : Store :=
  store0 [("42", "spam")] [G1] {[G1 := [PInt 43]]}
         {[G1 := plain_guild [42; 43] []]}.

Definition store_new : Store :=
  store0 [("42", "spam")] [] ∅ {[G1 := plain_guild [41] []]}.

Definition store_unlisted : Store :=
  store0 [("42", "spam")] [] ∅ {[G1 := closed_guild]}.

(** A state that the commands alone reach: G1 opts in, user 42 is banned
    globally, and the pass of the next [ban] command finds 42 banned in G1
    and records it in G1's banlist. *)
Definition store_recorded : Store :=
  let t0 := store0 [] [] ∅ {[G1 := plain_guild [] []]} in
  let t1 := store_of (optin "Alice" G1 true t0) in
  let t2 := store_of (ban_cmd "Alice" 42 "spam" t1) in
  store_of (ban_cmd "Alice" 43 "raid" t2).






(** * Properties *)

(** ** [str] and [int] *)

Lemma py_int_str (z : Z) : py_int (py_str z) = Some z.
Proof.
  unfold py_int, py_str.
  rewrite NilZero.isi.
  - simpl. f_equal. apply DecimalZ.of_to.
  - destruct z; simpl; try discriminate.
    intros [= H]. by apply DecimalPos.Unsigned.to_uint_nonnil in H.
  - destruct z; simpl; try discriminate.
    intros [= H]. by apply DecimalPos.Unsigned.to_uint_nonnil in H.
Qed.

Lemma py_str_inj (a b : Z) : py_str a = py_str b -> a = b.
Proof.
  intros H. apply (f_equal py_int) in H.
  rewrite !py_int_str in H. congruence.
Qed.

(** ** Running the monad *)

Lemma run_bind {A B} (m : M A) (k : A -> M B) (s : Store) :
  (m ≫= k) s =
  match m s with
  | (Return a, s1, t1) =>
      match k a s1 with (r, s2, t2) => (r, s2, t1 ++ t2) end
  | (Raise e, s1, t1) => (Raise e, s1, t1)
  end.
Proof. reflexivity. Qed.

Lemma for_each_cons {A} (body : A -> M unit) x l s :
  for_each body (x :: l) s =
  match body x s with
  | (Return _, s1, t1) =>
      match for_each body l s1 with (r, s2, t2) => (r, s2, t1 ++ t2) end
  | (Raise e, s1, t1) => (Raise e, s1, t1)
  end.
Proof. reflexivity. Qed.

(** ** Loops
    A loop whose body always returns, keeps a preorder [R] on stores going and
    establishes a fact [D x] that [R] keeps true, returns with every [D x]
    established. *)
Section Loops.
Context {A : Type} (body : A -> M unit).
Context (R : Store -> Store -> Prop) `{!PreOrder R}.

Lemma for_each_run (D : A -> Store -> Prop) (l : list A) (s : Store) :
  (forall x s1 s2, D x s1 -> R s1 s2 -> D x s2) ->
  (forall x s1, x ∈ l -> R s s1 ->
     result_of (body x s1) = Return tt /\
     R s1 (store_of (body x s1)) /\ D x (store_of (body x s1))) ->
  result_of (for_each body l s) = Return tt /\
  R s (store_of (for_each body l s)) /\
  Forall (fun x => D x (store_of (for_each body l s))) l.
Proof.
  intros Hmono. revert s. induction l as [|x l IH]; intros s Hbody.
  - simpl. split; [done|]. split; [reflexivity | constructor].
  - destruct (Hbody x s) as (Hr & HR & HD); [left | reflexivity |].
    rewrite for_each_cons.
    destruct (body x s) as [[r s1] t1] eqn:E.
    unfold result_of, store_of in Hr, HR, HD. simpl in Hr, HR, HD. subst r.
    destruct (IH s1) as (Hr' & HR' & HD').
    { intros y s2 Hy HR2. apply Hbody; [by right | by etrans]. }
    destruct (for_each body l s1) as [[r2 s2] t2] eqn:E2.
    unfold result_of, store_of in *. simpl in *.
    split; [done|]. split; [by etrans|].
    constructor; [by eapply Hmono | done].
Qed.

(** Every event of such a loop is an event of some iteration. *)
Lemma for_each_events_all (P : event -> Prop) (l : list A) (s : Store) :
  (forall x s1, x ∈ l -> R s s1 ->
     result_of (body x s1) = Return tt /\
     R s1 (store_of (body x s1)) /\ Forall P (events_of (body x s1))) ->
  Forall P (events_of (for_each body l s)).
Proof.
  revert s. induction l as [|x l IH]; intros s Hbody.
  - constructor.
  - destruct (Hbody x s) as (Hr & HR & HP); [left | reflexivity |].
    rewrite for_each_cons.
    destruct (body x s) as [[r s1] t1] eqn:E.
    unfold result_of, store_of, events_of in Hr, HR, HP.
    simpl in Hr, HR, HP. subst r.
    specialize (IH s1).
    destruct (for_each body l s1) as [[r2 s2] t2] eqn:E2.
    unfold events_of in *. simpl in *.
    apply Forall_app. split; [done|].
    apply IH. intros y s2' Hy HR2. apply Hbody; [by right | by etrans].
Qed.

(** A projection [mu] of the trace that is the same for an iteration in
    every store adds up over the loop. *)
Lemma for_each_events_map {B} (mu : list event -> list B)
  (f : A -> list B) (l : list A) (s : Store) :
  mu [] = [] ->
  (forall t1 t2, mu (t1 ++ t2) = mu t1 ++ mu t2) ->
  (forall x s1, x ∈ l -> R s s1 ->
     result_of (body x s1) = Return tt /\
     R s1 (store_of (body x s1)) /\ mu (events_of (body x s1)) = f x) ->
  mu (events_of (for_each body l s)) = concat (f <$> l).
Proof.
  intros Hnil Happ. revert s. induction l as [|x l IH]; intros s Hbody.
  - done.
  - destruct (Hbody x s) as (Hr & HR & HP); [left | reflexivity |].
    rewrite for_each_cons.
    destruct (body x s) as [[r s1] t1] eqn:E.
    unfold result_of, store_of, events_of in Hr, HR, HP.
    simpl in Hr, HR, HP. subst r.
    specialize (IH s1).
    destruct (for_each body l s1) as [[r2 s2] t2] eqn:E2.
    unfold events_of in *. simpl in *.
    rewrite Happ, HP. f_equal.
    apply IH. intros y s2' Hy HR2. apply Hbody; [by right | by etrans].
Qed.
End Loops.

#[global] Instance keeps_preorder K : PreOrder (keeps K).
Proof.
  split.
  - intros s. split; [done | done | eauto].
  - intros s1 s2 s3 [C1 U1 K1] [C2 U2 K2]. split.
    + congruence.
    + auto.
    + intros h g Hg. destruct (K1 h g Hg) as (g2 & Hg2 & Hb2).
      destruct (K2 h g2 Hg2) as (g3 & Hg3 & Hb3). eauto.
  Qed.

(** An unban, caught or not, only lifts the ban it is asked to lift. *)
Lemma unban_keeps (K : Z -> Z -> Prop) (h u : Z) (s : Store) :
  is_Some (guilds s !! h) -> ~ K h u ->
  let r := try_except (guild_unban (Some h) u) (on_forbidden (ret tt)) s in
  result_of r = Return tt /\ keeps K s (store_of r) /\
  events_of r = [Unban h u].
Proof.
  intros [g Hg] HK r. subst r. run_eqn E. unfold_run. simpl. rewrite Hg. simpl.
  destruct (unban_reply_of g u); simpl; finish_run.
  - split; [done|]. split; [|done]. split; simpl.
    + done.
    + intros h' Hh'. rewrite lookup_insert_ne; [done|]. congruence.
    + intros h' g' Hg'. destruct (decide (h = h')) as [<-|Hne].
      * rewrite lookup_insert_eq. eexists. split; [done|].
        intros v Hv HKv. simpl. apply list_elem_of_filter.
        split; [congruence|]. congruence.
      * rewrite lookup_insert_ne by done. eauto.
  - split; [done|]. split; [reflexivity | done].
Qed.

(** One opted guild of [remove_gbs_user]: at most the ban of [uid] is
    lifted, and only where the guild's banlist does not hold [uid]. *)
Lemma remove_user_in_keeps (K : Z -> Z -> Prop) (uid gid : Z) (s : Store) :
  (forall h, K h uid -> PInt uid ∈ banlist_of (config s) h) ->
  let r := remove_user_in uid gid s in
  result_of r = Return tt /\ keeps K s (store_of r) /\
  Forall (fun e => forall h u, e = Unban h u ->
            h = gid /\ u = uid /\ PInt uid ∉ banlist_of (config s) gid)
         (events_of r).
Proof.
  intros HK r. subst r. run_eqn E.
  unfold remove_user_in, find_banned. unfold_run. simpl.
  destruct (guilds s !! gid) as [g|] eqn:Hg; simpl.
  2:{ finish_run. split; [done|]. split; [reflexivity | constructor]. }
  destruct (decide (PInt uid ∈ banlist_of (config s) gid)) as [Hin|Hout]; simpl.
  { finish_run. split; [done|]. split; [reflexivity | constructor]. }
  rewrite Hg. simpl.
  destruct (bans_reply_of g); simpl;
    try (finish_run; split; [done|]; split; [reflexivity|];
         each_event).
  destruct (filter (fun b => b = uid) (g_bans g)) as [|user rest] eqn:Hf; simpl.
  { finish_run. split; [done|]. split; [reflexivity|].
    each_event. }
  assert (user = uid) as ->.
  { assert (user ∈ filter (fun b => b = uid) (g_bans g)) as Hu
      by (rewrite Hf; left).
    by apply list_elem_of_filter in Hu as [-> _]. }
  destruct (unban_keeps K gid uid s) as (Hr & Hk & He); [by eexists | auto |].
  revert Hr Hk He. unfold result_of, store_of, events_of.
  unfold_run. simpl. rewrite Hg. simpl.
  destruct (unban_reply_of g uid); simpl; intros Hr Hk He; finish_run.
  - split; [done|]. split; [done|].
    each_event. intros h u [= -> ->]. done.
  - split; [done|]. split; [done|].
    each_event. intros h u [= -> ->]. done.
Qed.

(** One ban entry of [remove_gbs_guild]. *)
Lemma lift_ban_keeps (K : Z -> Z -> Prop) (gid u : Z) (s : Store) :
  is_Some (guilds s !! gid) ->
  (K gid u -> py_str u ∉ dict_keys (banned (config s)) \/
              PInt u ∈ banlist_of (config s) gid) ->
  let r := lift_ban (Some gid) u s in
  result_of r = Return tt /\ keeps K s (store_of r) /\
  Forall (fun e => forall h v, e = Unban h v ->
            h = gid /\ v = u /\
            py_str u ∈ dict_keys (banned (config s)) /\
            PInt u ∉ banlist_of (config s) gid)
         (events_of r).
Proof.
  intros [g Hg] HK r. subst r. run_eqn E.
  unfold lift_ban. unfold_run. simpl.
  destruct (decide (py_str u ∉ dict_keys (banned (config s)))) as [Hnot|Hkey];
    simpl.
  { finish_run. split; [done|]. split; [reflexivity | constructor]. }
  rewrite Hg. simpl.
  destruct (decide (PInt u ∈ banlist_of (config s) gid)) as [Hin|Hout]; simpl.
  { finish_run. split; [done|]. split; [reflexivity | constructor]. }
  assert (py_str u ∈ dict_keys (banned (config s))) as Hkey'.
  { by destruct (decide (py_str u ∈ dict_keys (banned (config s)))). }
  destruct (unban_keeps K gid u s) as (Hr & Hk & He); [by eexists | tauto |].
  revert Hr Hk He. unfold result_of, store_of, events_of.
  unfold_run. simpl. rewrite Hg. simpl.
  destruct (unban_reply_of g u); simpl; intros Hr Hk He; finish_run.
  - split; [done|]. split; [done|]. each_event. by intros h v [= -> ->].
  - split; [done|]. split; [done|]. each_event. by intros h v [= -> ->].
Qed.

Lemma remove_gbs_guild_keeps (K : Z -> Z -> Prop) (gid : Z) (s : Store) :
  (forall u, K gid u -> py_str u ∉ dict_keys (banned (config s)) \/
                        PInt u ∈ banlist_of (config s) gid) ->
  let r := remove_gbs_guild gid s in
  keeps K s (store_of r) /\ Forall (lifted_by_guild gid s) (events_of r).
Proof.
  intros HK r. subst r.
  destruct (remove_gbs_guild gid s) as [[r s'] t] eqn:E.
  unfold store_of, events_of. simpl. revert E.
  unfold remove_gbs_guild. rewrite run_bind. unfold get_guild at 1.
  unfold_run. simpl.
  destruct (guilds s !! gid) as [g|] eqn:Hg; simpl.
  2:{ finish_run. split; [reflexivity | constructor]. }
  rewrite Hg. simpl.
  destruct (bans_reply_of g) eqn:Hb; simpl;
    try (finish_run; split; [reflexivity|]; each_event; by intros ? ? [=]).
  assert (forall u s1, u ∈ g_bans g -> keeps K s s1 ->
            result_of (lift_ban (Some gid) u s1) = Return tt /\
            keeps K s1 (store_of (lift_ban (Some gid) u s1)) /\
            Forall (lifted_by_guild gid s)
                   (events_of (lift_ban (Some gid) u s1))) as Hbody.
  { intros u s1 Hu [Hc Hn Hk].
    destruct (Hk gid g Hg) as (g1 & Hg1 & _).
    destruct (lift_ban_keeps K gid u s1) as (Hr & Hk1 & He).
    - by eexists.
    - rewrite Hc. apply HK.
    - split; [done|]. split; [done|].
      eapply Forall_impl; [exact He|].
      intros e He' h v ->. destruct (He' h v eq_refl) as (-> & -> & Hkey & Hbl).
      rewrite Hc in Hkey, Hbl. split; [done|]. split; [eauto|]. done. }
  pose proof (for_each_run (lift_ban (Some gid)) (keeps K)
                (fun _ _ => True) (g_bans g) s) as Hrun.
  pose proof (for_each_events_all (lift_ban (Some gid)) (keeps K)
                (lifted_by_guild gid s) (g_bans g) s) as Hall.
  destruct (for_each (lift_ban (Some gid)) (g_bans g) s) as [[r2 s2] t2] eqn:E2.
  unfold result_of, store_of, events_of in Hrun, Hall. simpl in Hrun, Hall.
  finish_run.
  destruct Hrun as (_ & Hk & _).
  { done. }
  { intros u s1 Hu Hs1. destruct (Hbody u s1 Hu Hs1) as (? & ? & ?). done. }
  split; [done|].
  apply Forall_cons_2; [by intros ? ? [=]|].
  apply Hall. exact Hbody.
Qed.

Lemma remove_gbs_user_keeps (K : Z -> Z -> Prop) (uid : Z) (s : Store) :
  (forall h, K h uid -> PInt uid ∈ banlist_of (config s) h) ->
  let r := remove_gbs_user uid s in
  result_of r = Return tt /\ keeps K s (store_of r) /\
  Forall (lifted_by_user uid s) (events_of r).
Proof.
  intros HK r. subst r.
  assert (forall gid s1, gid ∈ opted (config s) -> keeps K s s1 ->
            result_of (remove_user_in uid gid s1) = Return tt /\
            keeps K s1 (store_of (remove_user_in uid gid s1)) /\
            Forall (lifted_by_user uid s)
                   (events_of (remove_user_in uid gid s1))) as Hbody.
  { intros gid s1 Hgid [Hc Hn Hk].
    destruct (remove_user_in_keeps K uid gid s1) as (Hr & Hk1 & He).
    - rewrite Hc. apply HK.
    - split; [done|]. split; [done|].
      eapply Forall_impl; [exact He|].
      intros e He' h u ->. destruct (He' h u eq_refl) as (-> & -> & Hbl).
      rewrite Hc in Hbl. done. }
  pose proof (for_each_run (remove_user_in uid) (keeps K)
                (fun _ _ => True) (opted (config s)) s) as Hrun.
  pose proof (for_each_events_all (remove_user_in uid) (keeps K)
                (lifted_by_user uid s) (opted (config s)) s) as Hall.
  destruct (remove_gbs_user uid s) as [[r s'] t] eqn:E.
  revert E. unfold remove_gbs_user. unfold_run. simpl.
  destruct (for_each (remove_user_in uid) (opted (config s)) s)
    as [[r2 s2] t2] eqn:E2.
  unfold result_of, store_of, events_of in *. simpl in *.
  finish_run.
  destruct Hrun as (Hr & Hk & _).
  { done. }
  { intros g s1 Hg Hs1. destruct (Hbody g s1 Hg Hs1) as (? & ? & ?). done. }
  split; [done|]. split; [done|]. apply Hall. exact Hbody.
Qed.

(** ** Removal: the claims *)

(** An integer that a guild's stored banlist holds is never unbanned in that
    guild (the entries of [optin]): neither [remove_gbs_user] (for any user) nor
    [remove_gbs_guild] (for any guild), nor the [unban] and [optout] commands
    that edit the roster or the opted list before calling them, issue
    [guild.unban] for it there. *)
Theorem allow_listed_never_unbanned (s : Store) (gid u : Z) :
  PInt u ∈ banlist_of (config s) gid ->
  (forall uid, Unban gid u ∉ events_of (remove_gbs_user uid s)) /\
  (forall gid', Unban gid u ∉ events_of (remove_gbs_guild gid' s)) /\
  (forall uid, Unban gid u ∉ events_of (unban_cmd uid s)) /\
  (forall gid' confirmed, Unban gid u ∉ events_of (optout gid' confirmed s)).
Proof.
  intros Hin.
  assert (forall s1, banlists (config s1) = banlists (config s) ->
            forall uid, Unban gid u ∉ events_of (remove_gbs_user uid s1)) as Huser.
  { intros s1 Hbl uid Hev.
    destruct (remove_gbs_user_keeps no_kept uid s1) as (_ & _ & Hall);
      [by intros ? [] |].
    rewrite Forall_forall in Hall.
    destruct (Hall _ Hev gid u eq_refl) as (-> & _ & Hout).
    apply Hout. unfold banlist_of. rewrite Hbl. exact Hin. }
  assert (forall s1, banlists (config s1) = banlists (config s) ->
            forall gid', Unban gid u ∉ events_of (remove_gbs_guild gid' s1))
    as Hguild.
  { intros s1 Hbl gid' Hev.
    destruct (remove_gbs_guild_keeps no_kept gid' s1) as (_ & Hall);
      [by intros ? [] |].
    rewrite Forall_forall in Hall.
    destruct (Hall _ Hev gid u eq_refl) as (-> & _ & _ & Hout).
    apply Hout. unfold banlist_of. rewrite Hbl. exact Hin. }
  split; [by apply Huser|]. split; [by apply Hguild|]. split.
  - intros uid. unfold unban_cmd, set_banned. unfold_run. simpl.
    match goal with
    | |- context [remove_gbs_user uid ?s1] =>
        pose proof (Huser s1 eq_refl uid) as H1;
        destruct (remove_gbs_user uid s1) as [[[|e] s2] t2]
    end; unfold events_of in *; simpl in *; [|done].
    rewrite elem_of_app. intros [H|H]; [done|].
    by apply list_elem_of_singleton in H.
  - intros gid' confirmed. unfold optout, set_opted. unfold_run. simpl.
    destruct (decide (gid' ∉ opted (config s))); simpl.
    { unfold events_of. simpl. intros H. by apply list_elem_of_singleton in H. }
    destruct confirmed; simpl; [|by intros H%elem_of_nil].
    match goal with
    | |- context [remove_gbs_guild gid' ?s1] =>
        pose proof (Hguild s1 eq_refl gid') as H1;
        destruct (remove_gbs_guild gid' s1) as [[[|e] s2] t2]
    end; unfold events_of in *; simpl in *; [|done].
    rewrite elem_of_app. intros [H|H]; [done|].
    by apply list_elem_of_singleton in H.
Qed.

Lemma allow_listed_never_unbanned_witness :
  PInt 42 ∈ banlist_of (config store_protected) G1 /\
  Unban G1 42 ∉ events_of (remove_gbs_user 42 store_protected).
Proof.
  assert (PInt 42 ∈ banlist_of (config store_protected) G1) as H.
  { by_compute. }
  split; [exact H|].
  exact (proj1 (allow_listed_never_unbanned store_protected G1 42 H) 42).
Defined.

(** C10. [remove_gbs_user] and [remove_gbs_guild] leave the persisted
    configuration as it was: the roster, the opted list and every guild's
    banlist are the same after the call, whether it returns or raises. *)
Theorem removal_preserves_config (s : Store) (uid gid : Z) :
  config (store_of (remove_gbs_user uid s)) = config s /\
  config (store_of (remove_gbs_guild gid s)) = config s.
Proof.
  split.
  - destruct (remove_gbs_user_keeps no_kept uid s) as (_ & [Hc _ _] & _);
      [by intros ? [] | done].
  - destruct (remove_gbs_guild_keeps no_kept gid s) as ([Hc _ _] & _);
      [by intros ? [] | done].
Qed.



#[global] Instance grows_preorder : PreOrder grows.
Proof.
  split.
  - intros s. split; try done. intros h g Hg. exists g. auto 10.
  - intros s1 s2 s3 [B1 O1 N1 U1 K1] [B2 O2 N2 U2 K2]. split; try congruence.
    + auto.
    + intros h g Hg. destruct (K1 h g Hg) as (g2 & Hg2 & ? & ? & ? & ? & ?).
      destruct (K2 h g2 Hg2) as (g3 & Hg3 & ? & ? & ? & ? & ?).
      exists g3. repeat split; try congruence; auto.
Qed.

Lemma queries_app t1 t2 : queries (t1 ++ t2) = queries t1 ++ queries t2.
Proof. apply omap_app. Qed.

Lemma ban_calls_app t1 t2 : ban_calls (t1 ++ t2) = ban_calls t1 ++ ban_calls t2.
Proof. apply filter_app. Qed.

Lemma put_guild_grows (s : Store) (h : Z) (g g' : Guild) :
  guilds s !! h = Some g ->
  g_name g' = g_name g -> bans_reply_of g' = bans_reply_of g ->
  ban_reply_of g' = ban_reply_of g ->
  (forall u, u ∈ g_bans g -> u ∈ g_bans g') ->
  (forall u, u ∈ g_members g' -> u ∈ g_members g) ->
  grows s (mkStore (config s) (<[h := g']> (guilds s)) (now s)).
Proof.
  intros Hg Hn Hb Hr Hbans Hmem. split; simpl; try done.
  - intros h' Hh'. rewrite lookup_insert_ne; [done|]. congruence.
  - intros h' g0 Hg0. destruct (decide (h = h')) as [<-|Hne].
    + rewrite lookup_insert_eq. exists g'.
      assert (g0 = g) as -> by congruence. auto 10.
    + rewrite lookup_insert_ne by done. exists g0. auto 10.
Qed.

Lemma set_banlist_grows (s : Store) (h : Z) (l : list pyval) :
  grows s (mkStore (mkConfig (banned (config s)) (opted (config s))
                             (<[h := l]> (banlists (config s))))
                   (guilds s) (now s)).
Proof. split; simpl; try done. intros h' g Hg. exists g. auto 10. Qed.

(** One roster entry in one known guild. *)
Lemma update_entry_grows (author : string) (gid : Z) (g : Guild)
  (uid reason : string) (u : Z) (s : Store) :
  guilds s !! gid = Some g -> py_int uid = Some u ->
  ~ member_not_found g u ->
  let r := update_entry author gid (Some gid) (uid, reason) s in
  result_of r = Return tt /\ grows s (store_of r) /\
  queries (events_of r) = [gid] /\
  (bans_reply_of g = BansOk -> u ∈ g_bans g \/ ban_reply_of g u = BanOk ->
   exists g', guilds (store_of r) !! gid = Some g' /\ u ∈ g_bans g') /\
  (u ∈ g_bans g \/ bans_reply_of g <> BansOk -> ban_calls (events_of r) = []).
Proof.
  intros Hg Hu Hnf r. subst r. run_eqn E.
  unfold update_entry, already_banned, enforce_ban. unfold_run. simpl.
  rewrite ?Hg, ?Hu; simpl.
  destruct (bans_reply_of g) eqn:Hb; simpl.
  - destruct (decide (u ∈ g_bans g)) as [Hin|Hout]; simpl.
    + rewrite ?Hg, ?Hu; simpl.
      destruct (decide (PInt u ∈ banlist_of (config s) gid)); simpl;
        finish_run.
      * split; [done|]. split; [reflexivity|]. split; [done|].
        split; [eauto | done].
      * split; [done|]. split; [apply set_banlist_grows|]. split; [done|].
        split; [simpl; eauto | done].
    + rewrite ?Hg, ?Hu; simpl.
      destruct (decide (u ∈ g_members g)) as [Hm|Hm]; simpl.
      * rewrite ?Hg, ?Hu; simpl.
        destruct (ban_reply_of g u) eqn:Hr; simpl.
        -- finish_run. split; [done|]. split.
           { eapply put_guild_grows; eauto; simpl.
             - intros v Hv. case_decide; [done|]. apply elem_of_app. by left.
             - intros v Hv. by apply list_elem_of_filter in Hv as [_ ?]. }
           split; [done|]. split.
           { intros _ _. simpl. rewrite lookup_insert_eq. eexists.
             split; [done|]. simpl. case_decide; [done|].
             apply elem_of_app. right. by left. }
           intros [?|?]; done.
        -- exfalso. apply Hnf. done.
        -- rewrite ?Hg, ?Hu; simpl. finish_run.
           split; [done|]. split; [reflexivity|]. split; [done|].
           split; [by intros _ [?|?] | by intros [?|?]].
      * rewrite ?Hg, ?Hu; simpl.
        destruct (ban_reply_of g u) eqn:Hr; simpl.
        -- finish_run. split; [done|]. split.
           { eapply put_guild_grows; eauto; simpl.
             - intros v Hv. case_decide; [done|]. apply elem_of_app. by left.
             - intros v Hv. by apply list_elem_of_filter in Hv as [_ ?]. }
           split; [done|]. split.
           { intros _ _. simpl. rewrite lookup_insert_eq. eexists.
             split; [done|]. simpl. case_decide; [done|].
             apply elem_of_app. right. by left. }
           intros [?|?]; done.
        -- finish_run. split; [done|]. split; [reflexivity|]. split; [done|].
           split; [by intros _ [?|?] | by intros [?|?]].
        -- rewrite ?Hg, ?Hu; simpl. finish_run.
           split; [done|]. split; [reflexivity|]. split; [done|].
           split; [by intros _ [?|?] | by intros [?|?]].
  - finish_run. split; [done|]. split; [reflexivity|]. split; [done|].
    split; [done | done].
  - finish_run. split; [done|]. split; [reflexivity|]. split; [done|].
    split; [done | done].
Qed.

Lemma concat_const {A B} (f : A -> B) (l : list A) :
  concat ((fun x => [f x]) <$> l) = f <$> l.
Proof. induction l as [|x l IH]; [done|]. csimpl. by f_equal. Qed.

Lemma concat_nil {A B} (l : list A) :
  concat ((fun _ => @nil B) <$> l) = [].
Proof. induction l as [|x l IH]; [done|]. by csimpl. Qed.

Lemma members_found_grows s s' h :
  members_found s h -> grows s s' -> members_found s' h.
Proof.
  intros Hm [Hb _ _ Hu Hk] g' kv u Hg' Hkv Hint Hmem Hnb.
  destruct (guilds s !! h) as [g|] eqn:Hg.
  - destruct (Hk h g Hg) as (g2 & Hg2 & _ & _ & Hr & Hba & Hme).
    assert (g2 = g') as -> by congruence.
    rewrite Hr. rewrite Hb in Hkv. eapply Hm; eauto.
  - rewrite (Hu h Hg) in Hg'. done.
Qed.

Lemma bannable_grows s s' h : bannable s h -> grows s s' -> bannable s' h.
Proof.
  intros Hm [Hb _ _ Hu Hk] g' kv u Hg' Hkv Hint.
  destruct (guilds s !! h) as [g|] eqn:Hg.
  - destruct (Hk h g Hg) as (g2 & Hg2 & _ & _ & Hr & Hba & _).
    assert (g2 = g') as -> by congruence.
    rewrite Hr. rewrite Hb in Hkv.
    destruct (Hm g kv u Hg Hkv Hint); auto.
  - rewrite (Hu h Hg) in Hg'. done.
Qed.

Lemma enforced_grows s s' h : enforced s h -> grows s s' -> enforced s' h.
Proof.
  intros Hm [Hb _ _ Hu Hk] g' kv u Hg' Hl Hkv Hint.
  destruct (guilds s !! h) as [g|] eqn:Hg.
  - destruct (Hk h g Hg) as (g2 & Hg2 & _ & Hbr & _ & Hba & _).
    assert (g2 = g') as -> by congruence.
    rewrite Hb in Hkv. rewrite Hbr in Hl. eauto.
  - rewrite (Hu h Hg) in Hg'. done.
Qed.

Lemma guild_queries_grows s s' h :
  grows s s' -> guild_queries s' h = guild_queries s h.
Proof.
  intros [Hb _ _ Hu Hk]. unfold guild_queries.
  destruct (guilds s !! h) as [g|] eqn:Hg.
  - destruct (Hk h g Hg) as (g2 & -> & _). by rewrite Hb.
  - by rewrite (Hu h Hg).
Qed.

(** One opted guild of [update_gbs]: the whole roster is gone through. *)
Lemma update_guild_grows (author : string) (gid : Z) (s : Store) :
  parsable (banned (config s)) -> members_found s gid ->
  let r := update_guild author gid s in
  result_of r = Return tt /\ grows s (store_of r) /\
  queries (events_of r) = guild_queries s gid /\
  (bannable s gid -> enforced (store_of r) gid) /\
  (enforced s gid -> ban_calls (events_of r) = []).
Proof.
  intros Hp Hm r. subst r.
  destruct (guilds s !! gid) as [g|] eqn:Hg.
  2:{ run_eqn E. unfold update_guild. unfold_run. simpl. rewrite Hg. simpl.
      finish_run. unfold guild_queries. rewrite Hg.
      split; [done|]. split; [reflexivity|]. split; [done|].
      split; [|done]. intros _ g' kv u Hg'. congruence. }
  set (body := update_entry author gid (Some gid)).
  set (roster := banned (config s)).
  (* what one iteration does in any store the loop can reach *)
  assert (forall kv s1, kv ∈ roster -> grows s s1 ->
            result_of (body kv s1) = Return tt /\
            grows s1 (store_of (body kv s1)) /\
            queries (events_of (body kv s1)) = [gid] /\
            (bannable s gid -> forall u, py_int kv.1 = Some u ->
               forall g1, guilds (store_of (body kv s1)) !! gid = Some g1 ->
                 bans_reply_of g1 = BansOk -> u ∈ g_bans g1) /\
            (enforced s gid -> ban_calls (events_of (body kv s1)) = []))
    as Hbody.
  { intros [uid reason] s1 Hkv Hs1.
    pose proof (members_found_grows _ _ _ Hm Hs1) as Hm1.
    destruct Hs1 as [Hb1 _ _ _ Hk1].
    destruct (Hk1 gid g Hg) as (g1 & Hg1 & _ & Hbr & Hr & Hba & Hme).
    unfold parsable in Hp. rewrite Forall_forall in Hp.
    destruct (Hp _ Hkv) as [u Hu]. simpl in Hu.
    destruct (update_entry_grows author gid g1 uid reason u s1 Hg1 Hu)
      as (Hres & Hgr & Hq & Hban & Hno).
    { intros (_ & Hnb & Hmem & Hnf).
      eapply (Hm1 g1 (uid, reason) u); eauto. by rewrite Hb1. }
    fold (body (uid, reason)) in Hres, Hgr, Hq, Hban, Hno.
    split; [done|]. split; [done|]. split; [done|]. split.
    - intros Hbn u' Hu' g2 Hg2 Hl2. simpl in Hu'.
      assert (u' = u) as -> by congruence.
      destruct Hgr as [_ _ _ _ Hk2].
      destruct (Hk2 gid g1 Hg1) as (g3 & Hg3 & _ & Hbr3 & _).
      assert (g3 = g2) as -> by congruence.
      destruct Hban as (g4 & Hg4 & Hin).
      + congruence.
      + destruct (Hbn g (uid, reason) u Hg Hkv Hu) as [?|?]; [auto|].
        right. congruence.
      + congruence.
    - intros Hen. apply Hno.
      destruct (bans_reply_of g) eqn:Hl.
      + left. apply Hba. eapply (Hen g (uid, reason) u); eauto.
      + right. congruence.
      + right. congruence. }
  pose proof (for_each_run body grows
                (fun kv s' => bannable s gid -> forall u,
                   py_int kv.1 = Some u -> forall g1,
                   guilds s' !! gid = Some g1 ->
                   bans_reply_of g1 = BansOk -> u ∈ g_bans g1)
                roster s) as Hrun.
  pose proof (for_each_events_map body grows queries (fun _ => [gid])
                roster s eq_refl queries_app) as Hq.
  pose proof (for_each_events_map body grows ban_calls (fun _ => [])
                roster s eq_refl ban_calls_app) as Hb.
  run_eqn E. unfold update_guild. unfold_run. simpl. rewrite Hg. simpl.
  fold body. fold roster.
  destruct (for_each body roster s) as [[r2 s2] t2] eqn:E2.
  unfold result_of, store_of, events_of in Hrun, Hq, Hb.
  simpl in Hrun, Hq, Hb. finish_run.
  destruct Hrun as (Hres & Hgr & HD).
  { intros kv s1 s2' HD [_ _ _ Hu2 Hk2] Hbn u Hu g2 Hg2 Hl2.
    destruct (guilds s1 !! gid) as [g1|] eqn:Hg1.
    - destruct (Hk2 gid g1 Hg1) as (g3 & Hg3 & _ & Hbr & _ & Hba & _).
      assert (g3 = g2) as -> by congruence.
      apply Hba. eapply HD; eauto. congruence.
    - rewrite (Hu2 gid Hg1) in Hg2. done. }
  { intros kv s1 Hkv Hs1.
    destruct (Hbody kv s1 Hkv Hs1) as (? & ? & _ & ? & _). auto. }
  split; [done|]. split; [done|]. split.
  { rewrite Hq.
    - unfold guild_queries. rewrite Hg. apply (concat_const (fun _ => gid)).
    - intros kv s1 Hkv Hs1.
      destruct (Hbody kv s1 Hkv Hs1) as (? & ? & ? & _). auto. }
  split.
  - intros Hbn g2 kv u Hg2 Hl2 Hkv Hu.
    rewrite Forall_forall in HD.
    destruct Hgr as [Hb2 _ _ _ _]. rewrite Hb2 in Hkv.
    eapply (HD kv); eauto.
  - intros Hen. rewrite Hb; [apply concat_nil|].
    intros kv s1 Hkv Hs1.
    destruct (Hbody kv s1 Hkv Hs1) as (? & ? & _ & _ & ?). auto.
Qed.

(** The whole pass of [update_gbs]. *)
Lemma update_gbs_grows (author : string) (s : Store) :
  parsable (banned (config s)) ->
  (forall h, h ∈ opted (config s) -> members_found s h) ->
  let r := update_gbs author s in
  result_of r = Return tt /\ grows s (store_of r) /\
  queries (events_of r) = concat (guild_queries s <$> opted (config s)) /\
  ((forall h, h ∈ opted (config s) -> bannable s h) ->
   forall h, h ∈ opted (config s) -> enforced (store_of r) h) /\
  ((forall h, h ∈ opted (config s) -> enforced s h) ->
   ban_calls (events_of r) = []).
Proof.
  intros Hp Hm r. subst r.
  set (body := update_guild author).
  set (gids := opted (config s)).
  assert (forall h s1, h ∈ gids -> grows s s1 ->
            result_of (body h s1) = Return tt /\
            grows s1 (store_of (body h s1)) /\
            queries (events_of (body h s1)) = guild_queries s h /\
            (bannable s h -> enforced (store_of (body h s1)) h) /\
            (enforced s h -> ban_calls (events_of (body h s1)) = []))
    as Hbody.
  { intros h s1 Hh Hs1.
    destruct (update_guild_grows author h s1) as (Hres & Hgr & Hq & Hen & Hno).
    - destruct Hs1 as [-> _ _ _ _]. exact Hp.
    - eapply members_found_grows; eauto.
    - fold (body h) in Hres, Hgr, Hq, Hen, Hno.
      split; [done|]. split; [done|]. split.
      { rewrite Hq. by apply guild_queries_grows. }
      split.
      + intros Hbn. apply Hen. eapply bannable_grows; eauto.
      + intros He. apply Hno. eapply enforced_grows; eauto. }
  pose proof (for_each_run body grows
                (fun h s' => bannable s h -> enforced s' h) gids s) as Hrun.
  pose proof (for_each_events_map body grows queries (guild_queries s)
                gids s eq_refl queries_app) as Hq.
  pose proof (for_each_events_map body grows ban_calls (fun _ => [])
                gids s eq_refl ban_calls_app) as Hb.
  run_eqn E. unfold update_gbs. unfold_run. simpl. fold body. fold gids.
  destruct (for_each body gids s) as [[r2 s2] t2] eqn:E2.
  unfold result_of, store_of, events_of in Hrun, Hq, Hb.
  simpl in Hrun, Hq, Hb. finish_run.
  destruct Hrun as (Hres & Hgr & HD).
  { intros h s1 s2' HD Hs Hbn. eapply enforced_grows; eauto. }
  { intros h s1 Hh Hs1.
    destruct (Hbody h s1 Hh Hs1) as (? & ? & _ & ? & _). auto. }
  split; [done|]. split; [done|]. split.
  { apply Hq. intros h s1 Hh Hs1.
    destruct (Hbody h s1 Hh Hs1) as (? & ? & ? & _). auto. }
  split.
  - intros Hbn h Hh. rewrite Forall_forall in HD. apply HD; auto.
  - intros Hen. rewrite Hb; [apply concat_nil|].
    intros h s1 Hh Hs1.
    destruct (Hbody h s1 Hh Hs1) as (? & ? & _ & _ & ?). auto.
Qed.

Lemma bannable_members_found s h : bannable s h -> members_found s h.
Proof.
  intros Hb g kv u Hg Hkv Hu _ Hnb.
  destruct (Hb g kv u Hg Hkv Hu) as [?|Hok]; [done | by rewrite Hok].
Qed.

(** ** Enforcement: the claims *)


Lemma guild_of_G1 (roster : list (string * string)) (bl : gmap Z (list pyval))
  (g0 g : Guild) (h : Z) :
  h ∈ [G1] -> guilds (store0 roster [G1] bl {[G1 := g0]}) !! h = Some g ->
  g = g0.
Proof.
  intros ->%list_elem_of_singleton. simpl.
  rewrite lookup_singleton_eq. congruence.
Qed.

(** C2, as stated, fails: when the provider refuses the ban of user 42, the
    first pass returns, and a second pass on the store the first one left
    (same roster, same opted list, the bans as the first pass left them)
    issues the ban call for 42 again. *)
Lemma second_pass_bans_again :
  let r1 := update_gbs "Alice" store_strict in
  let r2 := update_gbs "Alice" (store_of r1) in
  result_of r1 = Return tt /\
  banned (config (store_of r1)) = banned (config store_strict) /\
  opted (config (store_of r1)) = opted (config store_strict) /\
  g_bans <$> (guilds (store_of r1) !! G1) = Some [43] /\
  ban_calls (events_of r2) =
    [Ban G1 (ByMember 42)
         "Global ban initiated by Alice with the reason: spam"] /\
  ~ (ban_calls (events_of r2) = []).
Proof. vm_compute. repeat split. discriminate. Qed.

(** C3.  In [update_gbs] the [continue] after a failed enumeration ends the
    iteration for one roster entry: with two entries and a guild whose bans
    cannot be enumerated, the bans are enumerated, and the failure is logged,
    once per entry. *)
Theorem unavailable_guild_is_queried_per_entry :
  update_gbs "Alice" store_closed =
    (Return tt, store_closed,
     [ListBans G1; LogException "Error with guild with id '1001'" Forbidden;
      ListBans G1; LogException "Error with guild with id '1001'" Forbidden])
  /\
  events_of (remove_gbs_user 42 store_closed) =
    [ListBans G1; LogException "Error with guild with id '1001'" Forbidden].
Proof. split; vm_compute; reflexivity. Qed.

(** C4.  [remove_gbs_guild] calls [guild.bans()] on the result of
    [get_guild] without the test for [None] that [update_gbs] and
    [remove_gbs_user] make: for an identifier the provider does not know it
    raises [AttributeError], and so does [optout]; a guild whose bans cannot
    be enumerated makes it raise [Forbidden]. *)
Theorem remove_gbs_guild_unknown_raises :
  remove_gbs_guild 7 store_protected =
    (Raise AttributeError, store_protected, []) /\
  result_of (optout 7 true (store0 [] [7] ∅ ∅)) = Raise AttributeError /\
  result_of (remove_gbs_guild G1 store_closed) = Raise Forbidden /\
  result_of (remove_gbs_user 42 (store0 [] [7] ∅ ∅)) = Return tt /\
  result_of (update_gbs "Alice" (store0 [] [7] ∅ ∅)) = Return tt.
Proof. repeat split; vm_compute; reflexivity. Qed.

(** C5.  With roster {42: "spam"}, G1 opted and 42 neither banned in G1 nor
    a member of it, [update_gbs] issues the one ban with the reason of the
    scenario and creates one case, but the case is created with [user=m],
    which is [None]: the target of the ban is not in the audit record.  For
    a current member the record names the user. *)
Theorem audit_record_lacks_target_of_non_member :
  events_of (update_gbs "Alice" store_fresh) =
    [ListBans G1;
     Ban G1 (ById 42) "Global ban initiated by Alice with the reason: spam";
     CreateCase G1 1700000000 "globalban" None
       "Global ban initiated by Alice with the reason: spam"] /\
  events_of (update_gbs "Alice"
     (store0 [("42", "spam")] [G1] ∅ {[G1 := plain_guild [] [42]]})) =
    [ListBans G1;
     Ban G1 (ByMember 42)
       "Global ban initiated by Alice with the reason: spam";
     CreateCase G1 1700000000 "globalban" (Some 42)
       "Global ban initiated by Alice with the reason: spam"].
Proof. split; vm_compute; reflexivity. Qed.

(** C6.  With roster {42: "spam"}, G1 opted and 42 banned in G1 already,
    [update_gbs] issues no ban call, but what it appends to G1's banlist is
    the roster key, the string "42": the integer 42, which is what every test
    on the banlist looks for, is still not in it, and a later
    [remove_gbs_user 42] or [remove_gbs_guild G1] lifts the ban. *)
Theorem already_banned_user_is_stored_as_string :
  let s1 := store_of (update_gbs "Alice" store_banned) in
  ban_calls (events_of (update_gbs "Alice" store_banned)) = [] /\
  banlist_of (config s1) G1 = [PStr "42"] /\
  (PInt 42 ∉ banlist_of (config s1) G1) /\
  events_of (remove_gbs_user 42 s1) = [ListBans G1; Unban G1 42] /\
  events_of (remove_gbs_guild G1 s1) = [ListBans G1; Unban G1 42].
Proof.
  repeat split; try (vm_compute; reflexivity).
  apply (bool_decide_unpack _). vm_compute. exact I.
Qed.

(** C8.  The test [int(uid) not in banlist] of [update_gbs] never finds the
    string that [banlist.append(uid)] stored: every further pass appends the
    same key again, so the banlist holds it twice after two passes, also when
    the passes are those of two [ban] commands after an [optin]. *)
Theorem banlist_gets_duplicates :
  let s1 := store_of (update_gbs "Alice" store_banned) in
  let s2 := store_of (update_gbs "Alice" s1) in
  banlist_of (config s2) G1 = [PStr "42"; PStr "42"] /\
  ~ NoDup (banlist_of (config s2) G1) /\
  (let t0 := store0 [] [] ∅ {[G1 := plain_guild [41; 42] []]} in
   let t1 := store_of (optin "Alice" G1 true t0) in
   let t2 := store_of (ban_cmd "Alice" 42 "spam" t1) in
   let t3 := store_of (ban_cmd "Alice" 43 "raid" t2) in
   banlist_of (config t1) G1 = [PInt 41; PInt 42] /\
   banlist_of (config t3) G1 = [PInt 41; PInt 42]) /\
  (let t0 := store0 [] [] ∅ {[G1 := plain_guild [41] []]} in
   let t1 := store_of (optin "Alice" G1 true t0) in
   let t1' := mkStore (config t1) {[G1 := plain_guild [41; 42] []]} (now t1) in
   let t2 := store_of (ban_cmd "Alice" 42 "spam" t1') in
   let t3 := store_of (ban_cmd "Alice" 43 "raid" t2) in
   banlist_of (config t3) G1 = [PInt 41; PStr "42"; PStr "42"]).
Proof.
  repeat split; try (vm_compute; reflexivity).
  intros Hnd. assert (banlist_of (config (store_of (update_gbs "Alice"
    (store_of (update_gbs "Alice" store_banned))))) G1
    = [PStr "42"; PStr "42"]) as Heq by (vm_compute; reflexivity).
  rewrite Heq in Hnd. apply NoDup_cons in Hnd as [Hnot _].
  apply Hnot. left.
Qed.

(** ** Enforcement: what a pass never does *)

#[global] Instance extends_preorder : PreOrder extends.
Proof.
  split.
  - intros s. split; try done. eauto.
  - intros s1 s2 s3 [B1 O1 N1 L1 U1 K1] [B2 O2 N2 L2 U2 K2].
    split; try congruence; auto.
    intros h g Hg. destruct (K1 h g Hg) as (g2 & Hg2 & H2).
    destruct (K2 h g2 Hg2) as (g3 & Hg3 & H3). eauto.
Qed.

(** A loop keeps what each iteration keeps, whether it returns or raises. *)
Lemma for_each_always {A} (body : A -> M unit) (R : Store -> Store -> Prop)
  `{!PreOrder R} (P : event -> Prop) (l : list A) (s : Store) :
  (forall x s1, x ∈ l -> R s s1 ->
     R s1 (store_of (body x s1)) /\ Forall P (events_of (body x s1))) ->
  R s (store_of (for_each body l s)) /\
  Forall P (events_of (for_each body l s)).
Proof.
  revert s. induction l as [|x l IH]; intros s Hbody.
  - split; [reflexivity | constructor].
  - destruct (Hbody x s) as (HR & HP); [left | reflexivity |].
    rewrite for_each_cons.
    destruct (body x s) as [[[[]|e] s1] t1] eqn:E;
      unfold store_of, events_of in HR, HP; simpl in HR, HP.
    + destruct (IH s1) as (HR' & HP').
      { intros y s2 Hy HR2. apply Hbody; [by right | by etrans]. }
      destruct (for_each body l s1) as [[r2 s2] t2] eqn:E2.
      unfold store_of, events_of in *. simpl in *.
      split; [by etrans | by apply Forall_app].
    + done.
Qed.

Lemma set_banlist_extends (s : Store) (h : Z) (x : pyval) :
  extends s (mkStore (mkConfig (banned (config s)) (opted (config s))
               (<[h := banlist_of (config s) h ++ [x]]> (banlists (config s))))
               (guilds s) (now s)).
Proof.
  split; simpl; try done; [|eauto].
  intros h' v Hv. unfold banlist_of in *. simpl.
  destruct (decide (h = h')) as [<-|Hne].
  - rewrite lookup_insert_eq. simpl. apply elem_of_app. by left.
  - by rewrite lookup_insert_ne.
Qed.

Lemma add_ban_extends (s : Store) (h u : Z) (g : Guild) :
  guilds s !! h = Some g ->
  extends s (mkStore (config s) (<[h := add_ban u g]> (guilds s)) (now s)).
Proof.
  intros Hg. split; simpl; try done.
  - intros h' Hh'. rewrite lookup_insert_ne; [done | congruence].
  - intros h' g' Hg'. destruct (decide (h = h')) as [<-|Hne].
    + rewrite lookup_insert_eq. eexists. split; [done|].
      assert (g' = g) as -> by congruence.
      intros v Hv. simpl. case_decide; [done|]. apply elem_of_app. by left.
    + rewrite lookup_insert_ne by done. eauto.
Qed.

Lemma extends_known_back (s s' : Store) (h : Z) (g' : Guild) :
  extends s s' -> guilds s' !! h = Some g' ->
  exists g, guilds s !! h = Some g /\ forall u, u ∈ g_bans g -> u ∈ g_bans g'.
Proof.
  intros [_ _ _ _ Hu Hk] Hg'. destruct (guilds s !! h) as [g|] eqn:Hg.
  - destruct (Hk h g Hg) as (g2 & Hg2 & Hsub).
    assert (g2 = g') as -> by congruence. eauto.
  - rewrite (Hu h Hg) in Hg'. done.
Qed.

Lemma update_entry_extends (author : string) (s0 s1 : Store) (gid : Z)
  (kv : string * string) :
  gid ∈ opted (config s0) -> kv ∈ banned (config s0) -> extends s0 s1 ->
  let r := update_entry author gid (Some gid) kv s1 in
  extends s1 (store_of r) /\
  Forall (enforcement_event author s0) (events_of r).
Proof.
  intros Hopt Hkv Hext r. subst r.
  destruct (update_entry author gid (Some gid) kv s1) as [[r s'] t] eqn:E.
  unfold store_of, events_of. simpl. revert E.
  unfold update_entry, already_banned, enforce_ban. unfold_run.
  destruct (guilds s1 !! gid) as [g1|] eqn:Hg1.
  2:{ run_cases; finish_run. split; [reflexivity|]. each_event. done. }
  destruct (extends_known_back _ _ _ _ Hext Hg1) as (g0 & Hg0 & Hsub).
  run_cases; finish_run.
  all: split; [first [reflexivity | apply set_banlist_extends
                     | by apply add_ban_extends] |].
  all: each_event.
  all: try done.
  all: simpl; split; [done|].
  all: try (exists g0, kv; repeat split; auto).
  all: try (split; [by destruct Hext|]; split; [done|]; by exists kv).
Qed.

Lemma update_guild_extends (author : string) (s0 s1 : Store) (gid : Z) :
  gid ∈ opted (config s0) -> extends s0 s1 ->
  let r := update_guild author gid s1 in
  extends s1 (store_of r) /\
  Forall (enforcement_event author s0) (events_of r).
Proof.
  intros Hopt Hext r. subst r.
  pose proof (for_each_always (update_entry author gid (Some gid)) extends
                (enforcement_event author s0) (banned (config s1)) s1) as Hl.
  destruct (update_guild author gid s1) as [[r s'] t] eqn:E.
  unfold store_of, events_of. simpl. revert E.
  unfold update_guild. unfold_run. simpl.
  destruct (guilds s1 !! gid) as [g1|] eqn:Hg1; simpl.
  2:{ finish_run. split; [reflexivity | constructor]. }
  destruct (for_each (update_entry author gid (Some gid))
              (banned (config s1)) s1) as [[r2 s2] t2] eqn:E2.
  unfold store_of, events_of in Hl. simpl in Hl. finish_run.
  apply Hl. intros kv s2' Hkv Hs2.
  apply update_entry_extends; [done | | by etrans].
  destruct Hext as [<- _ _ _ _ _]. done.
Qed.

(** The whole pass, whatever its outcome. *)
Lemma update_gbs_extends (author : string) (s : Store) :
  let r := update_gbs author s in
  extends s (store_of r) /\
  Forall (enforcement_event author s) (events_of r).
Proof.
  intros r. subst r.
  pose proof (for_each_always (update_guild author) extends
                (enforcement_event author s) (opted (config s)) s) as Hl.
  destruct (update_gbs author s) as [[r s'] t] eqn:E.
  unfold store_of, events_of. simpl. revert E.
  unfold update_gbs. unfold_run. simpl.
  destruct (for_each (update_guild author) (opted (config s)) s)
    as [[r2 s2] t2] eqn:E2.
  unfold store_of, events_of in Hl. simpl in Hl. finish_run.
  apply Hl. intros gid s1 Hgid Hs1. by apply update_guild_extends.
Qed.

(** ** Removal: what a pass achieves *)

#[global] Instance shrinks_preorder : PreOrder shrinks.
Proof.
  split.
  - intros s. split; try done. intros h g Hg. exists g. auto 10.
  - intros s1 s2 s3 [C1 N1 U1 K1] [C2 N2 U2 K2]. split; try congruence.
    + auto.
    + intros h g Hg.
      destruct (K1 h g Hg) as (g2 & Hg2 & ? & ? & ? & ? & ? & ?).
      destruct (K2 h g2 Hg2) as (g3 & Hg3 & ? & ? & ? & ? & ? & ?).
      exists g3. repeat split; try congruence; auto.
Qed.

Lemma del_ban_shrinks (s : Store) (h u : Z) (g : Guild) :
  guilds s !! h = Some g ->
  shrinks s (mkStore (config s) (<[h := del_ban u g]> (guilds s)) (now s)).
Proof.
  intros Hg. split; simpl; try done.
  - intros h' Hh'. rewrite lookup_insert_ne; [done | congruence].
  - intros h' g' Hg'. destruct (decide (h = h')) as [<-|Hne].
    + rewrite lookup_insert_eq. eexists. split; [done|].
      assert (g' = g) as -> by congruence. repeat split; try done.
      intros v Hv. simpl in Hv. by apply list_elem_of_filter in Hv as [_ ?].
    + rewrite lookup_insert_ne by done. exists g'. auto 10.
Qed.

Lemma not_in_del_ban (u : Z) (g : Guild) : u ∉ g_bans (del_ban u g).
Proof. simpl. intros Hin. by apply list_elem_of_filter in Hin as [? _]. Qed.

(** One opted guild of [remove_gbs_user]. *)
Lemma remove_user_in_shrinks (uid gid : Z) (s : Store) :
  let r := remove_user_in uid gid s in
  result_of r = Return tt /\ shrinks s (store_of r) /\
  Forall removal_event (events_of r) /\
  (forall g, guilds s !! gid = Some g -> bans_reply_of g = BansOk ->
     PInt uid ∉ banlist_of (config s) gid ->
     unban_reply_of g uid = UnbanOk ->
     exists g', guilds (store_of r) !! gid = Some g' /\ uid ∉ g_bans g').
Proof.
  intros r. subst r. run_eqn E.
  unfold remove_user_in, find_banned. unfold_run.
  destruct (guilds s !! gid) as [g|] eqn:Hg.
  2:{ run_cases. finish_run. split; [done|]. split; [reflexivity|].
      split; [constructor | done]. }
  destruct (decide (PInt uid ∈ banlist_of (config s) gid)) as [Hin|Hout].
  { run_cases. finish_run. split; [done|]. split; [reflexivity|].
    split; [constructor | done]. }
  simpl. rewrite Hg. simpl.
  destruct (bans_reply_of g) eqn:Hb; simpl;
    try (finish_run; split; [done|]; split; [reflexivity|];
         split; [by each_event | intros ? [= <-] ?; congruence]).
  destruct (filter (fun b => b = uid) (g_bans g)) as [|user rest] eqn:Hf; simpl.
  { finish_run. split; [done|]. split; [reflexivity|].
    split; [by each_event|]. intros g' [= <-] _ _ _. exists g. split; [done|].
    intros Hin. assert (uid ∈ filter (fun b => b = uid) (g_bans g)) as Hu
      by (by apply list_elem_of_filter).
    rewrite Hf in Hu. by apply elem_of_nil in Hu. }
  assert (user = uid) as ->.
  { assert (user ∈ filter (fun b => b = uid) (g_bans g)) as Hu
      by (rewrite Hf; left).
    by apply list_elem_of_filter in Hu as [-> _]. }
  rewrite Hg. simpl.
  destruct (unban_reply_of g uid) eqn:Hr; simpl; finish_run.
  - split; [done|]. split; [by apply del_ban_shrinks|].
    split; [by each_event|]. intros g' [= <-] _ _ _. simpl.
    rewrite lookup_insert_eq. eexists. split; [done|]. apply not_in_del_ban.
  - split; [done|]. split; [reflexivity|].
    split; [by each_event|]. intros g' [= <-] _ _ Hok. congruence.
Qed.

Lemma shrinks_known_back (s s' : Store) (h : Z) (g' : Guild) :
  shrinks s s' -> guilds s' !! h = Some g' ->
  exists g, guilds s !! h = Some g /\
            forall u, u ∈ g_bans g' -> u ∈ g_bans g.
Proof.
  intros [_ _ Hu Hk] Hg'. destruct (guilds s !! h) as [g|] eqn:Hg.
  - destruct (Hk h g Hg) as (g2 & Hg2 & _ & _ & _ & _ & _ & Hsub).
    assert (g2 = g') as -> by congruence. eauto.
  - rewrite (Hu h Hg) in Hg'. done.
Qed.

Lemma remove_gbs_user_shrinks (uid : Z) (s : Store) :
  let r := remove_gbs_user uid s in
  result_of r = Return tt /\ shrinks s (store_of r) /\
  Forall removal_event (events_of r) /\
  (forall h g, h ∈ opted (config s) -> guilds s !! h = Some g ->
     bans_reply_of g = BansOk ->
     PInt uid ∉ banlist_of (config s) h ->
     unban_reply_of g uid = UnbanOk ->
     exists g', guilds (store_of r) !! h = Some g' /\ uid ∉ g_bans g').
Proof.
  intros r. subst r.
  set (D := fun (h : Z) (s' : Store) =>
    forall g, guilds s !! h = Some g -> bans_reply_of g = BansOk ->
      PInt uid ∉ banlist_of (config s) h ->
      unban_reply_of g uid = UnbanOk ->
      exists g', guilds s' !! h = Some g' /\ uid ∉ g_bans g').
  assert (forall h s1, h ∈ opted (config s) -> shrinks s s1 ->
            result_of (remove_user_in uid h s1) = Return tt /\
            shrinks s1 (store_of (remove_user_in uid h s1)) /\
            Forall removal_event (events_of (remove_user_in uid h s1)) /\
            D h (store_of (remove_user_in uid h s1))) as Hbody.
  { intros h s1 Hh Hs1.
    destruct (remove_user_in_shrinks uid h s1) as (Hr & Hsh & He & Hd).
    split; [done|]. split; [done|]. split; [done|].
    intros g Hg Hb Hbl Hu. destruct Hs1 as [Hc _ _ Hk].
    destruct (Hk h g Hg) as (g1 & Hg1 & _ & _ & Hb1 & _ & Hu1 & _).
    apply (Hd g1); [done | congruence | by rewrite Hc | congruence]. }
  pose proof (for_each_run (remove_user_in uid) shrinks D
                (opted (config s)) s) as Hrun.
  pose proof (for_each_events_all (remove_user_in uid) shrinks removal_event
                (opted (config s)) s) as Hall.
  destruct (remove_gbs_user uid s) as [[r s'] t] eqn:E.
  revert E. unfold remove_gbs_user. unfold_run. simpl.
  destruct (for_each (remove_user_in uid) (opted (config s)) s)
    as [[r2 s2] t2] eqn:E2.
  unfold result_of, store_of, events_of in *. simpl in *.
  finish_run.
  destruct Hrun as (Hr & Hsh & HD).
  { intros h s1 s2' Hd Hs g Hg Hb Hbl Hu.
    destruct (Hd g Hg Hb Hbl Hu) as (g1 & Hg1 & Hn).
    destruct Hs as [_ _ _ Hk].
    destruct (Hk h g1 Hg1) as (g2 & Hg2 & _ & _ & _ & _ & _ & Hsub).
    exists g2. split; [done|]. intros Hin. apply Hn. by apply Hsub. }
  { intros h s1 Hh Hs1. destruct (Hbody h s1 Hh Hs1) as (? & ? & _ & ?).
    done. }
  split; [done|]. split; [done|]. split.
  - apply Hall. intros h s1 Hh Hs1.
    destruct (Hbody h s1 Hh Hs1) as (? & ? & ? & _). done.
  - intros h g Hh. rewrite Forall_forall in HD. by apply HD.
Qed.

(** One ban entry of [remove_gbs_guild] in a known guild. *)
Lemma lift_ban_shrinks (gid u : Z) (g : Guild) (s : Store) :
  guilds s !! gid = Some g ->
  let r := lift_ban (Some gid) u s in
  result_of r = Return tt /\ shrinks s (store_of r) /\
  Forall removal_event (events_of r) /\
  (py_str u ∈ dict_keys (banned (config s)) ->
   PInt u ∉ banlist_of (config s) gid ->
   unban_reply_of g u = UnbanOk ->
   exists g', guilds (store_of r) !! gid = Some g' /\ u ∉ g_bans g').
Proof.
  intros Hg r. subst r. run_eqn E. unfold lift_ban. unfold_run.
  run_cases; finish_run.
  all: split; [done|].
  all: split; [first [reflexivity | by apply del_ban_shrinks]|].
  all: split; [by each_event|].
  all: try done.
  intros _ _ _. simpl. rewrite lookup_insert_eq. eexists.
  split; [done|]. apply not_in_del_ban.
Qed.

Lemma remove_gbs_guild_shrinks (gid : Z) (s : Store) :
  let r := remove_gbs_guild gid s in
  shrinks s (store_of r) /\ Forall removal_event (events_of r) /\
  (forall g, guilds s !! gid = Some g -> bans_reply_of g = BansOk ->
     result_of r = Return tt /\
     forall g' u, guilds (store_of r) !! gid = Some g' -> u ∈ g_bans g' ->
       py_str u ∉ dict_keys (banned (config s)) \/
       PInt u ∈ banlist_of (config s) gid \/
       unban_reply_of g u = UnbanForbidden).
Proof.
  intros r. subst r.
  destruct (remove_gbs_guild gid s) as [[r s'] t] eqn:E.
  unfold result_of, store_of, events_of. simpl. revert E.
  unfold remove_gbs_guild. rewrite run_bind. unfold get_guild at 1.
  unfold_run. simpl.
  destruct (guilds s !! gid) as [g|] eqn:Hg; simpl.
  2:{ finish_run. split; [reflexivity|]. split; [constructor | done]. }
  rewrite Hg. simpl.
  destruct (bans_reply_of g) eqn:Hb; simpl;
    try (finish_run; split; [reflexivity|]; split; [by each_event|];
         intros ? [= <-] ?; congruence).
  set (D := fun (u : Z) (s1 : Store) =>
    py_str u ∈ dict_keys (banned (config s)) ->
    PInt u ∉ banlist_of (config s) gid ->
    unban_reply_of g u = UnbanOk ->
    forall g', guilds s1 !! gid = Some g' -> u ∉ g_bans g').
  assert (forall u s1, u ∈ g_bans g -> shrinks s s1 ->
            result_of (lift_ban (Some gid) u s1) = Return tt /\
            shrinks s1 (store_of (lift_ban (Some gid) u s1)) /\
            Forall removal_event (events_of (lift_ban (Some gid) u s1)) /\
            D u (store_of (lift_ban (Some gid) u s1))) as Hbody.
  { intros u s1 Hu Hs1. pose proof Hs1 as [Hc _ _ Hk].
    destruct (Hk gid g Hg) as (g1 & Hg1 & _ & _ & _ & _ & Hu1 & _).
    destruct (lift_ban_shrinks gid u g1 s1 Hg1) as (Hr & Hsh & He & Hd).
    split; [done|]. split; [done|]. split; [done|].
    intros Hkey Hbl Hok g' Hg'.
    destruct Hd as (g2 & Hg2 & Hn); [by rewrite Hc | by rewrite Hc
                                    | congruence |].
    congruence. }
  pose proof (for_each_run (lift_ban (Some gid)) shrinks D (g_bans g) s)
    as Hrun.
  pose proof (for_each_events_all (lift_ban (Some gid)) shrinks removal_event
                (g_bans g) s) as Hall.
  destruct (for_each (lift_ban (Some gid)) (g_bans g) s) as [[r2 s2] t2] eqn:E2.
  unfold result_of, store_of, events_of in Hrun, Hall. simpl in Hrun, Hall.
  finish_run.
  destruct Hrun as (Hr & Hsh & HD).
  { intros u s1 s2' Hd Hs Hkey Hbl Hok g2 Hg2.
    destruct (shrinks_known_back _ _ _ _ Hs Hg2) as (g1 & Hg1 & Hsub).
    intros Hin. apply (Hd Hkey Hbl Hok g1 Hg1). by apply Hsub. }
  { intros u s1 Hu Hs1. destruct (Hbody u s1 Hu Hs1) as (? & ? & _ & ?).
    done. }
  split; [done|]. split.
  { apply Forall_cons_2; [done|]. apply Hall. intros u s1 Hu Hs1.
    destruct (Hbody u s1 Hu Hs1) as (? & ? & ? & _). done. }
  intros g0 [= <-] _. split; [done|].
  intros g' u Hg' Hin.
  destruct (shrinks_known_back _ _ _ _ Hsh Hg') as (g1 & Hg1 & Hsub).
  assert (g1 = g) as -> by congruence.
  rewrite Forall_forall in HD. specialize (HD u (Hsub u Hin)).
  destruct (decide (py_str u ∈ dict_keys (banned (config s)))) as [Hkey|];
    [|by left].
  destruct (decide (PInt u ∈ banlist_of (config s) gid)) as [|Hbl];
    [by right; left|].
  destruct (unban_reply_of g u) eqn:Hok; [|by right; right].
  exfalso. by apply (HD Hkey Hbl Hok g' Hg').
Qed.

(** ** The roster as a dict *)

Lemma dict_set_keys_present (k v : string) (d : list (string * string)) :
  k ∈ dict_keys d -> dict_keys (dict_set k v d) = dict_keys d.
Proof.
  unfold dict_keys. induction d as [|[k' v'] d IH]; intros Hin.
  - by apply elem_of_nil in Hin.
  - simpl. destruct (decide (k' = k)) as [->|Hne]; [done|].
    csimpl. f_equal. apply IH.
    apply elem_of_cons in Hin as [Heq|Hin]; [|done]. simpl in Heq. congruence.
Qed.

Lemma dict_set_keys_absent (k v : string) (d : list (string * string)) :
  k ∉ dict_keys d -> dict_keys (dict_set k v d) = dict_keys d ++ [k].
Proof.
  unfold dict_keys. induction d as [|[k' v'] d IH]; intros Hin.
  - done.
  - simpl. destruct (decide (k' = k)) as [->|Hne].
    + exfalso. apply Hin. csimpl. left.
    + csimpl. f_equal. apply IH. intros H. apply Hin. csimpl. by right.
Qed.

Lemma dict_set_here (k v : string) (d : list (string * string)) :
  (k, v) ∈ dict_set k v d.
Proof.
  induction d as [|[k' v'] d IH]; simpl.
  - left.
  - destruct (decide (k' = k)); [left | by right].
Qed.

Lemma dict_set_other (k v k' v' : string) (d : list (string * string)) :
  k' <> k -> (k', v') ∈ dict_set k v d <-> (k', v') ∈ d.
Proof.
  intros Hne. induction d as [|[k0 v0] d IH]; simpl.
  - rewrite list_elem_of_singleton, elem_of_nil. split; [congruence | done].
  - destruct (decide (k0 = k)) as [->|Hne0].
    + rewrite !elem_of_cons. split; (intros [?|?]; [congruence | by right]).
    + rewrite !elem_of_cons, IH. done.
Qed.

Lemma dict_set_nodup (k v : string) (d : list (string * string)) :
  NoDup (dict_keys d) -> NoDup (dict_keys (dict_set k v d)).
Proof.
  intros Hnd. destruct (decide (k ∈ dict_keys d)) as [Hin|Hout].
  - by rewrite dict_set_keys_present.
  - rewrite dict_set_keys_absent by done. apply NoDup_app.
    split; [done|]. split; [|apply NoDup_singleton].
    intros x Hx Hx'. apply list_elem_of_singleton in Hx'. by subst.
Qed.

Lemma dict_set_unique (k v w : string) (d : list (string * string)) :
  NoDup (dict_keys d) -> (k, w) ∈ dict_set k v d -> w = v.
Proof.
  unfold dict_keys. induction d as [|[k0 v0] d IH]; simpl; intros Hnd Hin.
  - apply list_elem_of_singleton in Hin. congruence.
  - apply NoDup_cons in Hnd as [Hk0 Hnd]. simpl in Hk0.
    destruct (decide (k0 = k)) as [->|Hne].
    + apply elem_of_cons in Hin as [?|Hin]; [congruence|].
      exfalso. apply Hk0. apply list_elem_of_fmap. by exists (k, w).
    + apply elem_of_cons in Hin as [?|Hin]; [congruence | auto].
Qed.

Lemma dict_set_parsable (u : Z) (v : string) (d : list (string * string)) :
  parsable d -> parsable (dict_set (py_str u) v d).
Proof.
  unfold parsable. induction d as [|[k0 v0] d IH]; simpl; intros Hp.
  - constructor; [|done]. simpl. rewrite py_int_str. by eexists.
  - apply Forall_cons in Hp as [H0 Hp].
    destruct (decide (k0 = py_str u)) as [->|Hne].
    + by constructor.
    + constructor; auto.
Qed.

Lemma dict_del_spec (k k' v' : string) (d : list (string * string)) :
  (k', v') ∈ dict_del k d <-> k' <> k /\ (k', v') ∈ d.
Proof. unfold dict_del. by rewrite list_elem_of_filter. Qed.

Lemma dict_del_keys (k : string) (d : list (string * string)) :
  k ∉ dict_keys (dict_del k d).
Proof.
  unfold dict_keys. intros Hin. apply list_elem_of_fmap in Hin as ([k' v'] & Heq & Hin).
  apply dict_del_spec in Hin as [Hne _]. simpl in Heq. congruence.
Qed.

Lemma dict_del_nodup (k : string) (d : list (string * string)) :
  NoDup (dict_keys d) -> NoDup (dict_keys (dict_del k d)).
Proof.
  unfold dict_keys, dict_del. induction d as [|[k0 v0] d IH]; intros Hnd.
  - constructor.
  - apply NoDup_cons in Hnd as [Hk0 Hnd]. rewrite filter_cons.
    case_decide; [|auto]. csimpl. apply NoDup_cons. split; [|auto].
    intros Hin. apply Hk0. apply list_elem_of_fmap in Hin as (kv & Heq & Hin).
    apply list_elem_of_filter in Hin as [_ Hin].
    apply list_elem_of_fmap. eauto.
Qed.

Lemma dict_del_parsable (k : string) (d : list (string * string)) :
  parsable d -> parsable (dict_del k d).
Proof.
  unfold parsable, dict_del. rewrite !Forall_forall. intros Hp kv Hin.
  apply list_elem_of_filter in Hin as [_ Hin]. auto.
Qed.

Lemma list_remove_first_subset (x y : Z) (l : list Z) :
  y ∈ list_remove_first x l -> y ∈ l.
Proof.
  induction l as [|z l IH]; simpl; [done|].
  destruct (decide (z = x)); rewrite ?elem_of_cons; intros H;
    [by right | destruct H; auto].
Qed.

Lemma list_remove_first_nodup (x : Z) (l : list Z) :
  NoDup l -> NoDup (list_remove_first x l) /\ x ∉ list_remove_first x l.
Proof.
  induction l as [|z l IH]; simpl; intros Hnd.
  - split; [constructor | apply not_elem_of_nil].
  - apply NoDup_cons in Hnd as [Hz Hnd]. destruct (IH Hnd) as [IH1 IH2].
    destruct (decide (z = x)) as [->|Hne]; [done|]. split.
    + apply NoDup_cons. split; [|done].
      intros Hin. apply Hz. by eapply list_remove_first_subset.
    + rewrite elem_of_cons. intros [?|?]; [congruence | done].
Qed.

Lemma list_remove_first_snoc (x : Z) (l : list Z) :
  x ∉ l -> list_remove_first x (l ++ [x]) = l.
Proof.
  induction l as [|z l IH]; simpl; intros Hx.
  - by destruct (decide (x = x)).
  - destruct (decide (z = x)) as [->|Hne].
    + exfalso. apply Hx. left.
    + f_equal. apply IH. intros H. apply Hx. by right.
Qed.

(** ** The commands as compositions *)

Lemma ban_cmd_run (author : string) (u : Z) (reason : string) (s : Store) :
  ban_cmd author u reason s =
  then_tick (update_gbs author
    (with_banned (dict_set (py_str u) reason (banned (config s))) s)).
Proof.
  unfold ban_cmd, set_banned, with_banned. unfold_run. simpl.
  by destruct (update_gbs author _) as [[[[]|e] s2] t2].
Qed.

Lemma unban_cmd_run (u : Z) (s : Store) :
  unban_cmd u s =
  then_tick (remove_gbs_user u
    (with_banned (dict_del (py_str u) (banned (config s))) s)).
Proof.
  unfold unban_cmd, set_banned, with_banned. unfold_run. simpl.
  by destruct (remove_gbs_user u _) as [[[[]|e] s2] t2].
Qed.

Lemma optout_run (gid : Z) (s : Store) :
  gid ∈ opted (config s) ->
  optout gid true s =
  then_tick (remove_gbs_guild gid
    (with_opted (list_remove_first gid (opted (config s))) s)).
Proof.
  intros Hin. unfold optout, set_opted, with_opted. unfold_run. simpl.
  destruct (decide (gid ∉ opted (config s))); [done|]. simpl.
  by destruct (remove_gbs_guild gid _) as [[[[]|e] s2] t2].
Qed.

Lemma optin_run (author : string) (gid : Z) (g : Guild) (s : Store) :
  gid ∉ opted (config s) -> guilds s !! gid = Some g ->
  bans_reply_of g = BansOk ->
  optin author gid true s =
  match then_tick (update_gbs author
          (with_banlist gid (PInt <$> g_bans g)
             (with_opted (opted (config s) ++ [gid]) s))) with
  | (r, s', t) => (r, s', ListBans gid :: t)
  end.
Proof.
  intros Hout Hg Hb.
  unfold optin, set_opted, with_opted, with_banlist. unfold_run. simpl.
  destruct (decide (gid ∈ opted (config s))); [done|]. simpl.
  rewrite Hg. simpl. rewrite Hb. simpl.
  by destruct (update_gbs author _) as [[[[]|e] s2] t2].
Qed.

Lemma then_tick_store (r : outcome unit * Store * list event) :
  store_of (then_tick r) = store_of r.
Proof. by destruct r as [[[[]|e] s] t]. Qed.

Lemma then_tick_result (r : outcome unit * Store * list event) :
  result_of (then_tick r) = result_of r.
Proof. by destruct r as [[[[]|e] s] t]. Qed.

Lemma then_tick_events (r : outcome unit * Store * list event) (e : event) :
  e ∈ events_of (then_tick r) -> e ∈ events_of r \/ e = Tick.
Proof.
  destruct r as [[[[]|x] s] t]; unfold events_of; simpl; [|by left].
  rewrite elem_of_app, list_elem_of_singleton. done.
Qed.

(** ** Further properties of the routines *)

(** X1. Whatever its outcome, [update_gbs] issues no [guild.unban], leaves
    the roster and the opted list as they were, removes no entry from any
    banlist and lifts no ban. *)
Theorem update_gbs_never_undoes (author : string) (s : Store) :
  let r := update_gbs author s in
  banned (config (store_of r)) = banned (config s) /\
  opted (config (store_of r)) = opted (config s) /\
  (forall h v, v ∈ banlist_of (config s) h ->
     v ∈ banlist_of (config (store_of r)) h) /\
  (forall h g u, guilds s !! h = Some g -> u ∈ g_bans g ->
     exists g', guilds (store_of r) !! h = Some g' /\ u ∈ g_bans g') /\
  (forall h u, Unban h u ∉ events_of r).
Proof.
  intros r. subst r.
  destruct (update_gbs_extends author s) as ([Hb Ho _ Hl _ Hk] & Hev).
  split; [done|]. split; [done|]. split; [done|]. split.
  - intros h g u Hg Hu. destruct (Hk h g Hg) as (g' & Hg' & Hsub). eauto.
  - intros h u Hin. rewrite Forall_forall in Hev. exact (Hev _ Hin).
Qed.

Lemma update_gbs_never_undoes_witness :
  exists g', guilds (store_of (update_gbs "Alice" store_two)) !! G1 = Some g' /\
             43 ∈ g_bans g'.
Proof.
  apply (proj1 (proj2 (proj2 (proj2
           (update_gbs_never_undoes "Alice" store_two))))
           G1 (plain_guild [43] [42]) 43).
  - reflexivity.
  - by_compute.
Defined.

(** X2. Every [guild.ban] that [update_gbs] issues is in a known guild of
    the opted list, for a user whose identifier is a key of the roster and
    who was not banned there, with the reason built from the author and the
    roster's reason; every case it creates is of type "globalban", at the
    current time, in an opted guild, with such a reason. *)
Theorem update_gbs_bans_only_roster_users (author : string) (s : Store) :
  (forall h t reason, Ban h t reason ∈ events_of (update_gbs author s) ->
     h ∈ opted (config s) /\
     exists g kv, guilds s !! h = Some g /\ kv ∈ banned (config s) /\
       py_int kv.1 = Some (target_id t) /\
       reason = ban_reason author kv.2 /\
       target_id t ∉ g_bans g) /\
  (forall h created_at action_type user reason,
     CreateCase h created_at action_type user reason
       ∈ events_of (update_gbs author s) ->
     h ∈ opted (config s) /\ created_at = now s /\
     action_type = "globalban" /\
     exists kv, kv ∈ banned (config s) /\ reason = ban_reason author kv.2).
Proof.
  destruct (update_gbs_extends author s) as (_ & Hev).
  rewrite Forall_forall in Hev. split.
  - intros h t reason Hin. exact (Hev _ Hin).
  - intros h c a u reason Hin. exact (Hev _ Hin).
Qed.

Lemma update_gbs_bans_only_roster_users_witness :
  G1 ∈ opted (config store_fresh) /\
  exists g kv, guilds store_fresh !! G1 = Some g /\
    kv ∈ banned (config store_fresh) /\
    py_int kv.1 = Some 42 /\
    "Global ban initiated by Alice with the reason: spam"
      = ban_reason "Alice" kv.2 /\
    42 ∉ g_bans g.
Proof.
  apply (proj1 (update_gbs_bans_only_roster_users "Alice" store_fresh)
           G1 (ById 42) "Global ban initiated by Alice with the reason: spam").
  by_compute.
Defined.

(** X3. If every roster key is the decimal form of an integer and, in every
    opted guild, every roster user is banned already or is banned with
    success when asked, then [update_gbs] returns and afterwards every roster
    user is banned in every known opted guild that lists its bans. *)
Theorem update_gbs_enforces_roster (author : string) (s : Store) :
  parsable (banned (config s)) ->
  (forall h, h ∈ opted (config s) -> bannable s h) ->
  let r := update_gbs author s in
  result_of r = Return tt /\
  forall h g' kv u, h ∈ opted (config s) ->
    guilds (store_of r) !! h = Some g' -> bans_reply_of g' = BansOk ->
    kv ∈ banned (config s) -> py_int kv.1 = Some u -> u ∈ g_bans g'.
Proof.
  intros Hp Hb r. subst r.
  destruct (update_gbs_grows author s Hp) as (Hr & Hgr & _ & Hen & _).
  { intros h Hh. apply bannable_members_found. by apply Hb. }
  split; [done|]. intros h g' kv u Hh Hg' Hl Hkv Hu.
  apply (Hen Hb h Hh g' kv u Hg' Hl); [|done].
  destruct Hgr as [-> _ _ _ _]. done.
Qed.

Lemma update_gbs_enforces_roster_witness :
  result_of (update_gbs "Alice" store_two) = Return tt /\
  forall h g' kv u, h ∈ opted (config store_two) ->
    guilds (store_of (update_gbs "Alice" store_two)) !! h = Some g' ->
    bans_reply_of g' = BansOk ->
    kv ∈ banned (config store_two) -> py_int kv.1 = Some u -> u ∈ g_bans g'.
Proof.
  apply (update_gbs_enforces_roster "Alice" store_two).
  - repeat constructor; by eexists.
  - intros h Hh g kv u Hg Hkv Hu.
    apply (guild_of_G1 _ _ _ _ _ Hh) in Hg. subst g. by right.
Defined.

(** X4. [remove_gbs_user uid] always returns, and afterwards [uid] is not
    banned in any known opted guild that lists its bans, whose banlist does
    not hold [uid] and whose provider accepts the unban. *)
Theorem remove_gbs_user_lifts_ban (uid : Z) (s : Store) :
  let r := remove_gbs_user uid s in
  result_of r = Return tt /\
  forall h g, h ∈ opted (config s) -> guilds s !! h = Some g ->
    bans_reply_of g = BansOk ->
    PInt uid ∉ banlist_of (config s) h ->
    unban_reply_of g uid = UnbanOk ->
    exists g', guilds (store_of r) !! h = Some g' /\ uid ∉ g_bans g'.
Proof.
  intros r. subst r.
  destruct (remove_gbs_user_shrinks uid s) as (Hr & _ & _ & Hd). done.
Qed.

Lemma remove_gbs_user_lifts_ban_witness :
  exists g', guilds (store_of (remove_gbs_user 42 store_global)) !! G1
             = Some g' /\ 42 ∉ g_bans g'.
Proof.
  apply (proj2 (remove_gbs_user_lifts_ban 42 store_global)
           G1 (plain_guild [42; 43] [])).
  - by_compute.
  - reflexivity.
  - reflexivity.
  - by_compute.
  - reflexivity.
Defined.

(** X6. The removal routines make no call but enumerations, unbans and the
    log of a failed enumeration (no [guild.ban], no case), and every ban in
    place afterwards was in place before. *)
Theorem removal_never_bans (uid gid : Z) (s : Store) :
  (Forall removal_event (events_of (remove_gbs_user uid s)) /\
   forall h g' u, guilds (store_of (remove_gbs_user uid s)) !! h = Some g' ->
     u ∈ g_bans g' -> exists g, guilds s !! h = Some g /\ u ∈ g_bans g) /\
  (Forall removal_event (events_of (remove_gbs_guild gid s)) /\
   forall h g' u, guilds (store_of (remove_gbs_guild gid s)) !! h = Some g' ->
     u ∈ g_bans g' -> exists g, guilds s !! h = Some g /\ u ∈ g_bans g).
Proof.
  split.
  - destruct (remove_gbs_user_shrinks uid s) as (_ & Hsh & Hev & _).
    split; [done|]. intros h g' u Hg' Hu.
    destruct (shrinks_known_back _ _ _ _ Hsh Hg') as (g & Hg & Hsub). eauto.
  - destruct (remove_gbs_guild_shrinks gid s) as (Hsh & Hev & _).
    split; [done|]. intros h g' u Hg' Hu.
    destruct (shrinks_known_back _ _ _ _ Hsh Hg') as (g & Hg & Hsub). eauto.
Qed.

Lemma removal_never_bans_witness :
  exists g, guilds store_global !! G1 = Some g /\ 43 ∈ g_bans g.
Proof.
  apply (proj2 (proj1 (removal_never_bans 42 G1 store_global))
           G1 (plain_guild [43] []) 43).
  - vm_compute. reflexivity.
  - by_compute.
Defined.

(** ** The commands and the configuration *)

Lemma optin_config (author : string) (gid : Z) (confirmed : bool)
  (s : Store) :
  let s' := store_of (optin author gid confirmed s) in
  banned (config s') = banned (config s) /\
  opted (config s') =
    (if decide (gid ∈ opted (config s)) then opted (config s)
     else if confirmed then opted (config s) ++ [gid]
     else opted (config s)).
Proof.
  intros s'. subst s'. unfold optin, set_opted, set_banlist. unfold_run. simpl.
  destruct (decide (gid ∈ opted (config s))); simpl; [done|].
  destruct confirmed; simpl; [|done].
  destruct (guilds s !! gid) as [g|] eqn:Hg; simpl; [|done].
  destruct (bans_reply_of g); simpl; try done.
  match goal with
  | |- context [update_gbs author ?s1] =>
      destruct (update_gbs_extends author s1) as ([Hb Ho _ _ _ _] & _);
      destruct (update_gbs author s1) as [[[[]|x] s2] t2]
  end; unfold store_of in *; simpl in *; done.
Qed.

Lemma optout_config (gid : Z) (confirmed : bool) (s : Store) :
  let s' := store_of (optout gid confirmed s) in
  banned (config s') = banned (config s) /\
  banlists (config s') = banlists (config s) /\
  opted (config s') =
    (if decide (gid ∈ opted (config s)) then
       if confirmed then list_remove_first gid (opted (config s))
       else opted (config s)
     else opted (config s)).
Proof.
  intros s'. subst s'. unfold optout, set_opted. unfold_run. simpl.
  destruct (decide (gid ∉ opted (config s))) as [Hout|Hin]; simpl.
  { by destruct (decide (gid ∈ opted (config s))). }
  destruct (decide (gid ∈ opted (config s))); [|done].
  destruct confirmed; simpl; [|done].
  match goal with
  | |- context [remove_gbs_guild gid ?s1] =>
      destruct (remove_gbs_guild_shrinks gid s1) as ([Hc _ _ _] & _);
      destruct (remove_gbs_guild gid s1) as [[[[]|x] s2] t2]
  end; unfold store_of in *; simpl in *; by rewrite Hc.
Qed.

Lemma ban_cmd_config (author : string) (u : Z) (reason : string) (s : Store) :
  let s' := store_of (ban_cmd author u reason s) in
  banned (config s') = dict_set (py_str u) reason (banned (config s)) /\
  opted (config s') = opted (config s).
Proof.
  intros s'. subst s'. rewrite ban_cmd_run, then_tick_store.
  match goal with
  | |- context [update_gbs author ?s1] =>
      destruct (update_gbs_extends author s1) as ([Hb Ho _ _ _ _] & _)
  end. done.
Qed.

Lemma unban_cmd_config (u : Z) (s : Store) :
  config (store_of (unban_cmd u s)) =
  config (with_banned (dict_del (py_str u) (banned (config s))) s).
Proof.
  rewrite unban_cmd_run, then_tick_store.
  match goal with
  | |- context [remove_gbs_user u ?s1] =>
      destruct (remove_gbs_user_shrinks u s1) as (_ & [Hc _ _ _] & _)
  end. done.
Qed.

Lemma editreason_run (u : Z) (reason : string) (confirmed : bool)
  (s : Store) :
  editreason u reason confirmed s =
  if decide (py_str u ∉ dict_keys (banned (config s))) then
    (Return tt, s, [Send "This user is not banned."])
  else if bool_decide (reason = "") && negb confirmed then (Return tt, s, [])
  else (Return tt,
        with_banned (dict_set (py_str u) reason (banned (config s))) s,
        [Tick]).
Proof.
  unfold editreason, set_banned, with_banned. unfold_run. simpl.
  destruct (decide (py_str u ∉ dict_keys (banned (config s)))); [done|].
  by destruct (bool_decide (reason = "") && negb confirmed).
Qed.

(** X7. Every command keeps the configuration well formed: if no key occurs
    twice in the roster, every roster key is the decimal form of an integer
    and no guild occurs twice in the opted list, the same holds after
    [optin], [optout], [ban], [editreason] and [unban], whatever their
    arguments, the provider's answers and their outcome. *)
Theorem commands_keep_config_ok (s : Store) :
  config_ok (config s) ->
  (forall author gid confirmed,
     config_ok (config (store_of (optin author gid confirmed s)))) /\
  (forall gid confirmed,
     config_ok (config (store_of (optout gid confirmed s)))) /\
  (forall author u reason,
     config_ok (config (store_of (ban_cmd author u reason s)))) /\
  (forall u reason confirmed,
     config_ok (config (store_of (editreason u reason confirmed s)))) /\
  (forall u, config_ok (config (store_of (unban_cmd u s)))).
Proof.
  intros (Hk & Hp & Ho). repeat split.
  - destruct (optin_config author gid confirmed s) as [-> _]. done.
  - destruct (optin_config author gid confirmed s) as [-> _]. done.
  - destruct (optin_config author gid confirmed s) as [_ ->].
    destruct (decide (gid ∈ opted (config s))); [done|].
    destruct confirmed; [|done].
    apply NoDup_app. split; [done|]. split; [|apply NoDup_singleton].
    intros x Hx Hx'. apply list_elem_of_singleton in Hx'. by subst.
  - destruct (optout_config gid confirmed s) as (-> & _ & _). done.
  - destruct (optout_config gid confirmed s) as (-> & _ & _). done.
  - destruct (optout_config gid confirmed s) as (_ & _ & ->).
    destruct (decide (gid ∈ opted (config s))); [|done].
    destruct confirmed; [|done]. by apply list_remove_first_nodup.
  - destruct (ban_cmd_config author u reason s) as [-> _].
    by apply dict_set_nodup.
  - destruct (ban_cmd_config author u reason s) as [-> _].
    by apply dict_set_parsable.
  - destruct (ban_cmd_config author u reason s) as [_ ->]. done.
  - rewrite editreason_run. repeat case_match; try done.
    simpl. by apply dict_set_nodup.
  - rewrite editreason_run. repeat case_match; try done.
    simpl. by apply dict_set_parsable.
  - rewrite editreason_run. by repeat case_match.
  - rewrite unban_cmd_config. simpl. by apply dict_del_nodup.
  - rewrite unban_cmd_config. simpl. by apply dict_del_parsable.
  - rewrite unban_cmd_config. done.
Qed.

Lemma commands_keep_config_ok_witness :
  config_ok (config (store_of (ban_cmd "Alice" 44 "scam" store_two))).
Proof.
  apply (proj1 (proj2 (proj2 (commands_keep_config_ok store_two
    ltac:(repeat split; [by_compute | repeat constructor; by eexists
                        | by_compute]))))).
Defined.

(** X8. After [ban user_id reason] the roster maps the key [str(user_id)]
    to [reason] and to nothing else, that key reads back as [user_id], and
    every other entry is as it was; this holds whatever the outcome of the
    enforcement pass that follows. *)
Theorem ban_cmd_records_reason (author : string) (u : Z) (reason : string)
  (s : Store) :
  NoDup (dict_keys (banned (config s))) ->
  let roster' := banned (config (store_of (ban_cmd author u reason s))) in
  py_int (py_str u) = Some u /\
  (forall v, (py_str u, v) ∈ roster' <-> v = reason) /\
  (forall k v, k <> py_str u ->
     (k, v) ∈ roster' <-> (k, v) ∈ banned (config s)).
Proof.
  intros Hnd roster'. subst roster'.
  destruct (ban_cmd_config author u reason s) as [-> _].
  split; [apply py_int_str|]. split.
  - intros v. split.
    + by apply dict_set_unique.
    + intros ->. apply dict_set_here.
  - intros k v Hne. by apply dict_set_other.
Qed.

Lemma ban_cmd_records_reason_witness :
  ("44", "scam") ∈ banned (config (store_of (ban_cmd "Alice" 44 "scam"
                                               store_two))).
Proof.
  apply (proj1 (proj2 (ban_cmd_records_reason "Alice" 44 "scam" store_two
                         ltac:(by_compute)))).
  reflexivity.
Defined.

(** X9. [editreason] only edits the roster: it always returns, calls
    neither the provider nor the moderation log, leaves the guilds, the
    opted list, the banlists and the keys of the roster (and their order) as
    they were, and enforces nothing anew.  For a key of the roster and a
    reason that is not empty or is confirmed, the roster then maps the key to
    the new reason; for an identifier that is no key it changes nothing and
    answers "This user is not banned.". *)
Theorem editreason_only_edits_roster (u : Z) (reason : string)
  (confirmed : bool) (s : Store) :
  let r := editreason u reason confirmed s in
  result_of r = Return tt /\
  Forall reply_event (events_of r) /\
  guilds (store_of r) = guilds s /\
  opted (config (store_of r)) = opted (config s) /\
  banlists (config (store_of r)) = banlists (config s) /\
  dict_keys (banned (config (store_of r))) = dict_keys (banned (config s)) /\
  (py_str u ∈ dict_keys (banned (config s)) ->
   reason <> "" \/ confirmed = true ->
   NoDup (dict_keys (banned (config s))) ->
   forall v, (py_str u, v) ∈ banned (config (store_of r)) <-> v = reason) /\
  (py_str u ∉ dict_keys (banned (config s)) ->
   r = (Return tt, s, [Send "This user is not banned."])).
Proof.
  intros r. subst r. rewrite editreason_run.
  destruct (decide (py_str u ∉ dict_keys (banned (config s)))) as [Hout|Hin].
  { repeat split; try done. by each_event. }
  assert (py_str u ∈ dict_keys (banned (config s))) as Hin'.
  { by destruct (decide (py_str u ∈ dict_keys (banned (config s)))). }
  destruct (bool_decide (reason = "") && negb confirmed) eqn:Hc.
  - apply andb_true_iff in Hc as [Hr Hn]. apply bool_decide_eq_true in Hr.
    apply negb_true_iff in Hn. subst.
    repeat split; try done;
      match goal with H : _ \/ _ |- _ => by destruct H end.
  - unfold result_of, store_of, events_of. simpl.
    split; [done|]. split; [by each_event|]. split; [done|].
    split; [done|]. split; [done|].
    split; [by apply dict_set_keys_present|]. split; [|done].
    intros _ _ Hnd v. split.
    + by apply dict_set_unique.
    + intros ->. apply dict_set_here.
Qed.

Lemma editreason_only_edits_roster_witness :
  ("42", "phishing") ∈ banned (config (store_of
     (editreason 42 "phishing" false store_two))).
Proof.
  apply (proj1 (proj2 (proj2 (proj2 (proj2 (proj2 (proj2
           (editreason_only_edits_roster 42 "phishing" false store_two)))))))).
  - by_compute.
  - left. discriminate.
  - by_compute.
  - reflexivity.
Defined.

(** X10. [unban user_id] always returns; afterwards [str(user_id)] is no
    key of the roster, every other entry is as it was, and the user is not
    banned in any known opted guild that lists its bans, whose banlist does
    not hold the identifier and whose provider accepts the unban. *)
Theorem unban_cmd_removes_and_lifts (u : Z) (s : Store) :
  let r := unban_cmd u s in
  result_of r = Return tt /\
  (py_str u ∉ dict_keys (banned (config (store_of r)))) /\
  (forall k v, k <> py_str u ->
     (k, v) ∈ banned (config (store_of r)) <-> (k, v) ∈ banned (config s)) /\
  (forall h g, h ∈ opted (config s) -> guilds s !! h = Some g ->
     bans_reply_of g = BansOk ->
     PInt u ∉ banlist_of (config s) h ->
     unban_reply_of g u = UnbanOk ->
     exists g', guilds (store_of r) !! h = Some g' /\ u ∉ g_bans g').
Proof.
  intros r. subst r.
  pose proof (unban_cmd_config u s) as Hc.
  rewrite unban_cmd_run in *. rewrite then_tick_result, then_tick_store in *.
  set (s1 := with_banned (dict_del (py_str u) (banned (config s))) s) in *.
  destruct (remove_gbs_user_shrinks u s1) as (Hr & _ & _ & Hd).
  split; [done|]. rewrite Hc. simpl. split; [apply dict_del_keys|]. split.
  - intros k v Hne. rewrite dict_del_spec. tauto.
  - intros h g Hh Hg Hb Hbl Hok. by apply (Hd h g).
Qed.

Lemma unban_cmd_removes_and_lifts_witness :
  exists g', guilds (store_of (unban_cmd 42 store_global)) !! G1 = Some g' /\
             42 ∉ g_bans g'.
Proof.
  apply (proj2 (proj2 (proj2 (unban_cmd_removes_and_lifts 42 store_global)))
           G1 (plain_guild [42; 43] [])).
  - by_compute.
  - reflexivity.
  - reflexivity.
  - by_compute.
  - reflexivity.
Defined.

(** X11. A confirmed [optin] of a guild that is not opted in yet and lists
    its bans opts the guild in and stores every user banned there at that
    moment in its banlist as an integer, whatever the outcome of the
    enforcement pass that follows; from then on neither [remove_gbs_user] nor
    [remove_gbs_guild] unbans such a user in that guild. *)
Theorem optin_protects_existing_bans (author : string) (gid : Z) (g : Guild)
  (s : Store) :
  gid ∉ opted (config s) -> guilds s !! gid = Some g ->
  bans_reply_of g = BansOk ->
  let s' := store_of (optin author gid true s) in
  gid ∈ opted (config s') /\
  forall u, u ∈ g_bans g ->
    PInt u ∈ banlist_of (config s') gid /\
    (forall uid, Unban gid u ∉ events_of (remove_gbs_user uid s')) /\
    (forall gid', Unban gid u ∉ events_of (remove_gbs_guild gid' s')).
Proof.
  intros Hout Hg Hb s'. subst s'.
  destruct (optin_config author gid true s) as [_ Ho].
  destruct (decide (gid ∈ opted (config s))); [done|].
  split. { rewrite Ho. apply elem_of_app. right. left. }
  intros u Hu.
  assert (PInt u ∈ banlist_of
            (config (store_of (optin author gid true s))) gid) as Hin.
  { rewrite (optin_run author gid g s Hout Hg Hb).
    match goal with
    | |- context [update_gbs author ?s1] =>
        destruct (update_gbs_extends author s1) as ([_ _ _ Hl _ _] & _);
        specialize (Hl gid (PInt u));
        destruct (update_gbs author s1) as [[[[]|x] s2] t2]
    end; unfold store_of in *; simpl in *; apply Hl;
      unfold banlist_of; simpl; rewrite lookup_insert_eq; simpl;
      by apply list_elem_of_fmap_2. }
  split; [done|]. split.
  - intros uid Hev.
    destruct (remove_gbs_user_keeps no_kept uid
                (store_of (optin author gid true s))) as (_ & _ & Hall);
      [by intros ? [] |].
    rewrite Forall_forall in Hall.
    destruct (Hall _ Hev gid u eq_refl) as (-> & _ & Hnot). done.
  - intros gid' Hev.
    destruct (remove_gbs_guild_keeps no_kept gid'
                (store_of (optin author gid true s))) as (_ & Hall);
      [by intros ? [] |].
    rewrite Forall_forall in Hall.
    destruct (Hall _ Hev gid u eq_refl) as (-> & _ & _ & Hnot). done.
Qed.

Lemma optin_protects_existing_bans_witness :
  G1 ∈ opted (config (store_of (optin "Alice" G1 true store_new))) /\
  forall u, u ∈ g_bans (plain_guild [41] []) ->
    PInt u ∈ banlist_of
               (config (store_of (optin "Alice" G1 true store_new))) G1 /\
    (forall uid, Unban G1 u ∉ events_of
       (remove_gbs_user uid (store_of (optin "Alice" G1 true store_new)))) /\
    (forall gid', Unban G1 u ∉ events_of
       (remove_gbs_guild gid' (store_of (optin "Alice" G1 true store_new)))).
Proof.
  apply (optin_protects_existing_bans "Alice" G1 (plain_guild [41] [])
           store_new).
  - apply not_elem_of_nil.
  - reflexivity.
  - reflexivity.
Defined.

(** X12. When the bans of the guild cannot be enumerated, a confirmed
    [optin] of a guild that is not opted in yet raises the provider's
    exception after the opted list was saved: the guild is opted in, no
    banlist was stored for it, and no enforcement pass ran. *)
Theorem optin_fails_after_opting_in (author : string) (gid : Z) (g : Guild)
  (s : Store) :
  gid ∉ opted (config s) -> guilds s !! gid = Some g ->
  bans_reply_of g <> BansOk ->
  optin author gid true s =
    (Raise (match bans_reply_of g with
            | BansForbidden => Forbidden
            | _ => AttributeError
            end),
     with_opted (opted (config s) ++ [gid]) s,
     [ListBans gid]).
Proof.
  intros Hout Hg Hb.
  unfold optin, set_opted, with_opted. unfold_run. simpl.
  destruct (decide (gid ∈ opted (config s))); [done|]. simpl.
  rewrite Hg. simpl. by destruct (bans_reply_of g).
Qed.

Lemma optin_fails_after_opting_in_witness :
  optin "Alice" G1 true store_unlisted =
    (Raise Forbidden, with_opted [G1] store_unlisted, [ListBans G1]).
Proof.
  apply (optin_fails_after_opting_in "Alice" G1 closed_guild store_unlisted).
  - apply not_elem_of_nil.
  - reflexivity.
  - discriminate.
Defined.

(** X13. [optout] leaves the roster and every banlist as they were, also
    the banlist of the guild that opts out, and a confirmed [optout] after a
    confirmed [optin] of a guild that was not opted in restores the opted
    list, whatever the provider answered and whether or not either command
    raised. *)
Theorem optin_then_optout_restores_opted (author : string) (gid : Z)
  (s : Store) :
  (forall confirmed,
     banned (config (store_of (optout gid confirmed s))) = banned (config s) /\
     banlists (config (store_of (optout gid confirmed s)))
       = banlists (config s)) /\
  (gid ∉ opted (config s) ->
   opted (config (store_of
            (optout gid true (store_of (optin author gid true s)))))
     = opted (config s)).
Proof.
  split.
  - intros confirmed.
    destruct (optout_config gid confirmed s) as (? & ? & _). done.
  - intros Hout.
    destruct (optin_config author gid true s) as [_ Ho].
    destruct (decide (gid ∈ opted (config s))); [done|].
    destruct (optout_config gid true (store_of (optin author gid true s)))
      as (_ & _ & ->).
    rewrite Ho.
    destruct (decide (gid ∈ opted (config s) ++ [gid])) as [|Hn].
    + by apply list_remove_first_snoc.
    + exfalso. apply Hn. apply elem_of_app. right. left.
Qed.

Lemma optin_then_optout_restores_opted_witness :
  opted (config (store_of
           (optout G1 true (store_of (optin "Alice" G1 true store_new)))))
    = opted (config store_new).
Proof.
  apply (proj2 (optin_then_optout_restores_opted "Alice" G1 store_new)).
  apply not_elem_of_nil.
Defined.

(** ** The [list] command *)

Lemma append_nil_inv (a b : string) : a +:+ b = "" -> a = "" /\ b = "".
Proof. destruct a; simpl; [done | discriminate]. Qed.

Lemma roster_text_empty (roster : list (string * string)) :
  roster_text roster = "" <-> roster = [].
Proof.
  split; [|by intros ->].
  destruct roster as [|[k v] roster]; [done|].
  unfold roster_text. csimpl. intros H. exfalso.
  assert (k +:+ tab +:+ v <> "") as Hline.
  { intros Hl. apply append_nil_inv in Hl as [_ Hl]. discriminate. }
  destruct roster as [|kv roster]; simpl in H; [done|].
  apply append_nil_inv in H as [H _]. done.
Qed.

Lemma for_each_emit {A} (f : A -> event) (l : list A) (s : Store) :
  for_each (fun x => emit (f x)) l s = (Return tt, s, f <$> l).
Proof.
  induction l as [|x l IH]; [done|].
  rewrite for_each_cons. unfold emit at 1. by rewrite IH.
Qed.

(** X14. [list] changes nothing and always returns; it answers that there
    are no banned users exactly when the roster is empty, and otherwise sends
    one boxed message per page of the text that has one line
    [key TAB reason] per roster entry. *)
Theorem list_cmd_reports (inline box : string -> string)
  (pagify : string -> list string) (s : Store) :
  list_cmd inline box pagify s =
    (Return tt, s,
     match banned (config s) with
     | [] => [Send (inline "There are no banned users.")]
     | _ => (fun page => Send (box page))
              <$> pagify (roster_text (banned (config s)))
     end).
Proof.
  unfold list_cmd, get_banned, get_store, mbind, M_bind, bind, ret. simpl.
  destruct (decide (roster_text (banned (config s)) = "")) as [He|Hne].
  - apply roster_text_empty in He. rewrite He. done.
  - rewrite (for_each_emit (fun page => Send (box page))). simpl.
    destruct (banned (config s)) eqn:Hb; [|done].
    exfalso. by apply Hne.
Qed.

(** ** What a pass adds to the banlists *)

#[global] Instance appends_preorder : PreOrder appends.
Proof.
  split.
  - intros s. split; [done | by left].
  - intros s1 s2 s3 [B1 L1] [B2 L2]. split; [congruence|].
    intros h v Hv. destruct (L2 h v Hv) as [Hv2|(kv & Hkv & ->)].
    + by apply L1.
    + right. exists kv. split; [congruence | done].
Qed.

Lemma update_entry_only_appends (author : string) (gid : Z)
  (kv : string * string) (s : Store) :
  kv ∈ banned (config s) ->
  appends s (store_of (update_entry author gid (Some gid) kv s)).
Proof.
  intros Hkv.
  destruct (update_entry author gid (Some gid) kv s) as [[r s'] t] eqn:E.
  unfold store_of. simpl. revert E.
  unfold update_entry, already_banned, enforce_ban. unfold_run.
  run_cases; finish_run; try reflexivity;
    (split; simpl; [done|]; intros h v; unfold banlist_of; simpl;
     try (by left)).
  destruct (decide (gid = h)) as [<-|Hne].
  - rewrite lookup_insert_eq. simpl. rewrite elem_of_app.
    intros [?|Hv]; [by left|]. apply list_elem_of_singleton in Hv. eauto.
  - rewrite lookup_insert_ne by done. by left.
Qed.

Lemma update_gbs_only_appends (author : string) (s : Store) :
  appends s (store_of (update_gbs author s)).
Proof.
  assert (forall gid s1, appends s s1 ->
            appends s1 (store_of (update_guild author gid s1))) as Hguild.
  { intros gid s1 Hs1.
    pose proof (for_each_always (update_entry author gid (Some gid)) appends
                  (fun _ => True) (banned (config s1)) s1) as Hl.
    destruct (update_guild author gid s1) as [[r s'] t] eqn:E.
    unfold store_of. simpl. revert E.
    unfold update_guild. unfold_run. simpl.
    destruct (guilds s1 !! gid) as [g1|] eqn:Hg1; simpl.
    2:{ finish_run. reflexivity. }
    destruct (for_each (update_entry author gid (Some gid))
                (banned (config s1)) s1) as [[r2 s2] t2] eqn:E2.
    unfold store_of, events_of in Hl. simpl in Hl. finish_run.
    apply Hl. intros kv s2' Hkv Hs2. split; [|by apply Forall_true].
    apply update_entry_only_appends. destruct Hs2 as [-> _]. done. }
  pose proof (for_each_always (update_guild author) appends
                (fun _ => True) (opted (config s)) s) as Hl.
  destruct (update_gbs author s) as [[r s'] t] eqn:E.
  unfold store_of. simpl. revert E.
  unfold update_gbs. unfold_run. simpl.
  destruct (for_each (update_guild author) (opted (config s)) s)
    as [[r2 s2] t2] eqn:E2.
  unfold store_of, events_of in Hl. simpl in Hl. finish_run.
  apply Hl. intros gid s1 _ Hs1.
  split; [exact (Hguild gid s1 Hs1) | by apply Forall_true].
Qed.

(** X15. The only change [update_gbs] makes to a banlist is to append keys
    of the roster, as the strings they are: whatever its outcome, an integer
    is held by a banlist afterwards only if it was held before. *)
Theorem update_gbs_appends_only_strings (author : string) (s : Store) :
  let s' := store_of (update_gbs author s) in
  (forall h v, v ∈ banlist_of (config s') h ->
     v ∈ banlist_of (config s) h \/
     exists kv, kv ∈ banned (config s) /\ v = PStr kv.1) /\
  (forall h u, PInt u ∈ banlist_of (config s') h ->
     PInt u ∈ banlist_of (config s) h).
Proof.
  intros s'. subst s'. destruct (update_gbs_only_appends author s) as [_ Hl].
  split; [done|]. intros h u Hin.
  destruct (Hl h (PInt u) Hin) as [?|(kv & _ & ?)]; [done | discriminate].
Qed.

Lemma update_gbs_appends_only_strings_witness :
  PInt 42 ∈ banlist_of (config store_protected) G1.
Proof.
  apply (proj2 (update_gbs_appends_only_strings "Alice" store_protected)
           G1 42).
  by_compute.
Defined.

(** ** Removal: only bans in place are lifted *)

Lemma remove_user_in_unbans_banned (uid gid : Z) (s0 s : Store) :
  gid ∈ opted (config s0) -> shrinks s0 s ->
  Forall (lifts_ban_of uid s0) (events_of (remove_user_in uid gid s)).
Proof.
  intros Hopt Hsh.
  destruct (remove_user_in uid gid s) as [[r s'] t] eqn:E.
  unfold events_of. simpl. revert E.
  unfold remove_user_in, find_banned. unfold_run.
  destruct (guilds s !! gid) as [g|] eqn:Hg.
  2:{ run_cases. finish_run. constructor. }
  destruct (decide (PInt uid ∈ banlist_of (config s) gid)) as [Hin|Hout].
  { run_cases. finish_run. constructor. }
  simpl. rewrite Hg. simpl.
  destruct (bans_reply_of g) eqn:Hb; simpl;
    try (finish_run; by each_event).
  destruct (filter (fun b => b = uid) (g_bans g)) as [|user rest] eqn:Hf; simpl.
  { finish_run. each_event. }
  assert (user ∈ filter (fun b => b = uid) (g_bans g)) as Hu
    by (rewrite Hf; left).
  apply list_elem_of_filter in Hu as [-> Hu].
  destruct (shrinks_known_back _ _ _ _ Hsh Hg) as (g0 & Hg0 & Hsub).
  pose proof Hsh as [Hc _ _ Hk].
  destruct (Hk gid g0 Hg0) as (g1 & Hg1 & _ & _ & Hb1 & _).
  assert (g1 = g) as -> by congruence.
  assert (lifts_ban_of uid s0 (Unban gid uid)) as Hlift.
  { intros h u [= <- <-]. split; [done|]. split; [done|].
    exists g0. split; [done|]. split; [congruence|]. split; [auto|].
    by rewrite <- Hc. }
  rewrite Hg. simpl.
  destruct (unban_reply_of g uid); simpl; finish_run; each_event;
    first [exact Hlift | by intros ? ? [=]].
Qed.

Lemma remove_gbs_user_unbans_banned (uid : Z) (s : Store) :
  Forall (lifts_ban_of uid s) (events_of (remove_gbs_user uid s)).
Proof.
  pose proof (for_each_events_all (remove_user_in uid) shrinks
                (lifts_ban_of uid s) (opted (config s)) s) as Hall.
  destruct (remove_gbs_user uid s) as [[r s'] t] eqn:E.
  revert E. unfold remove_gbs_user. unfold_run. simpl.
  destruct (for_each (remove_user_in uid) (opted (config s)) s)
    as [[r2 s2] t2] eqn:E2.
  unfold result_of, store_of, events_of in *. simpl in *. finish_run.
  apply Hall. intros h s1 Hh Hs1.
  destruct (remove_user_in_shrinks uid h s1) as (Hr & Hsh & _ & _).
  split; [done|]. split; [done|]. by apply remove_user_in_unbans_banned.
Qed.

(** X16. [remove_gbs_user uid] unbans nobody but [uid], and only where the
    ban is in place, in a known opted guild that lists its bans and whose
    banlist does not hold [uid]; if the provider accepts the unban of [uid]
    in every opted guild, a second pass issues no unban at all. *)
Theorem remove_gbs_user_lifts_once (uid : Z) (s : Store) :
  (forall h u, Unban h u ∈ events_of (remove_gbs_user uid s) ->
     u = uid /\ h ∈ opted (config s) /\
     exists g, guilds s !! h = Some g /\ bans_reply_of g = BansOk /\
               uid ∈ g_bans g /\ PInt uid ∉ banlist_of (config s) h) /\
  ((forall h g, h ∈ opted (config s) -> guilds s !! h = Some g ->
      unban_reply_of g uid = UnbanOk) ->
   forall h u,
     Unban h u ∉ events_of
       (remove_gbs_user uid (store_of (remove_gbs_user uid s)))).
Proof.
  split.
  - intros h u Hev. pose proof (remove_gbs_user_unbans_banned uid s) as Hall.
    rewrite Forall_forall in Hall. exact (Hall _ Hev h u eq_refl).
  - intros Hok h u Hev.
    destruct (remove_gbs_user_shrinks uid s) as (_ & Hsh & _ & Hd).
    set (s1 := store_of (remove_gbs_user uid s)) in *.
    pose proof (remove_gbs_user_unbans_banned uid s1) as Hall.
    rewrite Forall_forall in Hall.
    destruct (Hall _ Hev h u eq_refl)
      as (-> & Hopt & g1 & Hg1 & Hb1 & Hin1 & Hbl1).
    pose proof Hsh as [Hc _ _ Hk]. rewrite Hc in Hopt, Hbl1.
    destruct (shrinks_known_back _ _ _ _ Hsh Hg1) as (g & Hg & _).
    destruct (Hk h g Hg) as (g2 & Hg2 & _ & _ & Hb2 & _).
    assert (g2 = g1) as -> by congruence.
    destruct (Hd h g Hopt Hg) as (g3 & Hg3 & Hnot);
      [congruence | done | by apply (Hok h g) |].
    assert (g3 = g1) as -> by congruence. done.
Qed.

Lemma remove_gbs_user_lifts_once_witness :
  42 = 42 /\ G1 ∈ opted (config store_global) /\
  exists g, guilds store_global !! G1 = Some g /\ bans_reply_of g = BansOk /\
            42 ∈ g_bans g /\ PInt 42 ∉ banlist_of (config store_global) G1.
Proof.
  apply (proj1 (remove_gbs_user_lifts_once 42 store_global) G1 42).
  by_compute.
Defined.

(** ** [ban] and [unban] on the roster *)

Lemma dict_del_set (k v : string) (d : list (string * string)) :
  k ∉ dict_keys d -> dict_del k (dict_set k v d) = d.
Proof.
  unfold dict_keys, dict_del. induction d as [|[k0 v0] d IH]; intros Hout.
  - simpl. rewrite filter_cons. simpl. by case_decide.
  - simpl. destruct (decide (k0 = k)) as [->|Hne].
    + exfalso. apply Hout. csimpl. left.
    + rewrite filter_cons. simpl. case_decide; [|done].
      f_equal. apply IH. intros H'. apply Hout. csimpl. by right.
Qed.

(** X17. [unban] after [ban] of a user who was not on the roster restores
    the roster, entry for entry and in the same order, whatever the provider
    answered in between; the opted list is the same too. *)
Theorem ban_then_unban_restores_roster (author : string) (u : Z)
  (reason : string) (s : Store) :
  py_str u ∉ dict_keys (banned (config s)) ->
  let s' := store_of (unban_cmd u (store_of (ban_cmd author u reason s))) in
  banned (config s') = banned (config s) /\
  opted (config s') = opted (config s).
Proof.
  intros Hout s'. subst s'.
  destruct (ban_cmd_config author u reason s) as [Hb Ho].
  rewrite unban_cmd_config. simpl. rewrite Hb, Ho.
  split; [by apply dict_del_set | done].
Qed.

Lemma ban_then_unban_restores_roster_witness :
  banned (config (store_of (unban_cmd 44
            (store_of (ban_cmd "Alice" 44 "scam" store_two)))))
    = banned (config store_two) /\
  opted (config (store_of (unban_cmd 44
            (store_of (ban_cmd "Alice" 44 "scam" store_two)))))
    = opted (config store_two).
Proof.
  apply (ban_then_unban_restores_roster "Alice" 44 "scam" store_two).
  by_compute.
Defined.

(** ** Stored banlist entries and repeated passes *)

(** C1.  After [optin] and two [ban] commands the stored banlist of G1 holds
    user 42, as the string "42" that line 213 appended, and 42 is banned in
    G1; yet [unban 42] issues [guild.unban] for 42 in G1, and so does
    [remove_gbs_user 42] on that state: the test [uid in banlist] of line 273
    looks for the integer.  Entries stored as integers do protect. *)
Theorem stored_banlist_entry_is_unbanned :
  banlist_of (config store_recorded) G1 = [PStr "42"] /\
  banned (config store_recorded) = [("42", "spam"); ("43", "raid")] /\
  opted (config store_recorded) = [G1] /\
  g_bans <$> (guilds store_recorded !! G1) = Some [42; 43] /\
  events_of (unban_cmd 42 store_recorded) =
    [ListBans G1; Unban G1 42; Tick] /\
  events_of (remove_gbs_user 42 store_recorded) =
    [ListBans G1; Unban G1 42].
Proof. repeat split; vm_compute; reflexivity. Qed.

(** C2, amended.  A pass never issues a ban for a user it finds banned: when
    [update_gbs] runs a second time on the store the first run left, the
    roster and the opted list are those of the first run, and every ban call
    of the second run is in an opted guild, for a roster user who is not
    banned there after the first run; so the second run issues no ban call
    when the first run left every roster user banned in every known opted
    guild. *)
Theorem second_pass_skips_banned (author author' : string) (s : Store) :
  let s1 := store_of (update_gbs author s) in
  let r2 := update_gbs author' s1 in
  banned (config s1) = banned (config s) /\
  opted (config s1) = opted (config s) /\
  (forall h t reason, Ban h t reason ∈ events_of r2 ->
     h ∈ opted (config s) /\
     exists g1 kv, guilds s1 !! h = Some g1 /\ kv ∈ banned (config s) /\
       py_int kv.1 = Some (target_id t) /\ target_id t ∉ g_bans g1) /\
  ((forall h g1 kv u, h ∈ opted (config s) -> guilds s1 !! h = Some g1 ->
      kv ∈ banned (config s) -> py_int kv.1 = Some u -> u ∈ g_bans g1) ->
   ban_calls (events_of r2) = []).
Proof.
  intros s1 r2. subst r2.
  destruct (update_gbs_extends author s) as ([Hb Ho _ _ _ _] & _).
  fold s1 in Hb, Ho.
  destruct (update_gbs_extends author' s1) as (_ & Hev).
  rewrite Forall_forall in Hev.
  assert (forall h t reason, Ban h t reason ∈ events_of (update_gbs author' s1) ->
            h ∈ opted (config s) /\
            exists g1 kv, guilds s1 !! h = Some g1 /\ kv ∈ banned (config s) /\
              py_int kv.1 = Some (target_id t) /\ target_id t ∉ g_bans g1)
    as Hskip.
  { intros h t reason Hin.
    destruct (Hev _ Hin) as (Hopt & g1 & kv & Hg1 & Hkv & Hu & _ & Hnot).
    rewrite Ho in Hopt. rewrite Hb in Hkv. eauto 10. }
  split; [done|]. split; [done|]. split; [exact Hskip|].
  intros Hall.
  destruct (ban_calls (events_of (update_gbs author' s1))) as [|e l] eqn:Hc;
    [done|]. exfalso.
  assert (e ∈ ban_calls (events_of (update_gbs author' s1))) as He
    by (rewrite Hc; left).
  unfold ban_calls in He. apply list_elem_of_filter in He as [Hban He].
  destruct e; try discriminate.
  destruct (Hskip _ _ _ He) as (Hopt & g1 & kv & Hg1 & Hkv & Hu & Hnot).
  apply Hnot. by apply (Hall gid g1 kv).
Qed.

Lemma second_pass_skips_banned_witness :
  G1 ∈ opted (config store_strict) /\
  exists g1 kv,
    guilds (store_of (update_gbs "Alice" store_strict)) !! G1 = Some g1 /\
    kv ∈ banned (config store_strict) /\
    py_int kv.1 = Some 42 /\ 42 ∉ g_bans g1.
Proof.
  apply (proj1 (proj2 (proj2 (second_pass_skips_banned "Alice" "Alice"
                                store_strict)))
           G1 (ByMember 42)
           "Global ban initiated by Alice with the reason: spam").
  by_compute.
Defined.

(** ** Loops: the trace as the traces of the iterations *)



(** ** Enforcement: refused bans *)









